(** * Store: inventory and checkout backend (store_manager_backend.py)

    A shallow embedding of the data layer of the point-of-sale tool: the
    three SQLite tables created by [init_db], the per-call connection with
    its implicit transaction, and the operations [add_product],
    [remove_product], [get_product_details], [process_sale] and
    [get_transaction_details].

    Modelling choices.
    - A table is the list of its rows in insertion (rowid) order.
    - [INTEGER] columns are [Z]; [REAL] columns (prices, totals) are exact
      rationals [Q]: rounding and overflow of binary floating point are
      not modelled, and a total is only ever compared with the result of
      the same computation or with 0.
    - An [int] bound to a statement is a 64-bit signed integer; binding
      one outside that range raises [OverflowError].
    - [TEXT] is [string], read as ASCII text.
    - A Python exception is a value of [exn]; its constructor is the
      exception class, its argument the message the code formats.
    - A connection carries the committed database and the working copy the
      statements of the open transaction act on. *)

From Stdlib Require Import List String Ascii ZArith QArith Bool Lia.
From Stdlib Require Import Permutation Sorted.
Import ListNotations.

Local Open Scope string_scope.
Local Open Scope list_scope.
Local Open Scope Z_scope.

(** ** Python string helpers *)

Module Py.

(** [str.isspace] on ASCII: tab, LF, VT, FF, CR, the separators
    0x1c-0x1f and the blank. *)
Definition isspace (c : ascii) : bool :=
  let n := nat_of_ascii c in
  ((9 <=? n) && (n <=? 13) || (28 <=? n) && (n <=? 32))%nat.

Fixpoint lstrip (s : string) : string :=
  match s with
  | EmptyString => EmptyString
  | String c r => if isspace c then lstrip r else s
  end.

Fixpoint rstrip (s : string) : string :=
  match s with
  | EmptyString => EmptyString
  | String c r =>
      match rstrip r with
      | EmptyString => if isspace c then EmptyString else String c EmptyString
      | r' => String c r'
      end
  end.

(** [s.strip()] *)
Definition strip (s : string) : string := rstrip (lstrip s).

Definition upper_char (c : ascii) : ascii :=
  let n := nat_of_ascii c in
  if ((97 <=? n) && (n <=? 122))%nat then ascii_of_nat (n - 32) else c.

(** [s.upper()] on ASCII text; other characters are left as they are. *)
Fixpoint upper (s : string) : string :=
  match s with
  | EmptyString => EmptyString
  | String c r => String (upper_char c) (upper r)
  end.

(** Truth value of a string: [not s] holds exactly for the empty one. *)
Definition not_str (s : string) : bool :=
  match s with EmptyString => true | _ => false end.

(** [x < y] on prices. *)
Definition Qltb (x y : Q) : bool := negb (Qle_bool y x).

End Py.

(** ** Rows and tables *)

Record product := mkProduct
  { sku : string; name : string; price : Q; quantity : Z }.

Record transaction := mkTransaction
  { transaction_id : Z; timestamp : string; total_amount : Q }.

Record transaction_item := mkItem
  { item_id : Z; ti_transaction_id : Z; product_sku : string;
    quantity_sold : Z; price_at_sale : Q }.

(** The database file: the three tables and the two AUTOINCREMENT
    counters SQLite keeps in [sqlite_sequence]. *)
Record db := mkDb
  { products : list product;
    transactions : list transaction;
    transaction_items : list transaction_item;
    seq_transactions : Z;
    seq_items : Z }.

(** The database right after [init_db] on a fresh file. *)
Definition init_db : db := mkDb [] [] [] 0 0.

(** One entry of the list handed to [process_sale]:
    [(sku, name, price_at_sale, quantity_sold)]. *)
Record bill_item := mkBill
  { b_sku : string; b_name : string; b_price : Q; b_qty : Z }.

(** ** Exceptions *)

Inductive constraint :=
| UniqueFailed        (* UNIQUE constraint failed: products.sku *)
| CheckFailed         (* CHECK constraint failed *)
| ForeignKeyFailed.   (* FOREIGN KEY constraint failed *)

Inductive exn :=
| IntegrityError (c : constraint)          (* sqlite3.IntegrityError *)
| OverflowError                            (* Python int too large to convert to SQLite INTEGER *)
| ValueError (m : message)
| RuntimeError (m : message)
with message :=
| MissingInfo                              (* Missing required product information ... *)
| NegativePriceQuantity                    (* Price and Quantity cannot be negative. *)
| SkuExists (k : string)                   (* SKU '{sku}' already exists. *)
| InvalidInput (e : exn)                   (* Invalid input: {e} *)
| DbErrorAdding (e : exn)                  (* Database error adding product: {e} *)
| SkuEmpty                                 (* SKU cannot be empty. *)
| ProductNotFound (k : string)             (* Product with SKU '{sku}' not found. *)
| CouldNotDelete (k : string)              (* Could not delete product '{sku}'. ... *)
| CannotRemove (k : string) (e : exn)      (* Cannot remove product '{sku}': It is part of past transactions. ({e}) *)
| DbErrorRemoving (e : exn)                (* Database error removing product: {e} *)
| EmptyBill                                (* Cannot process an empty bill. *)
| InsufficientStock (n k : string) (left : Z)
                                           (* Insufficient stock for '{name}' ({sku}) during final checkout. Only {left} left. *)
| DbErrorCheckout (e : exn)                (* Database error during checkout: {e} *)
| TransactionNotFound (id : Z)             (* Transaction ID {id} not found. *)
| DbErrorGettingProduct (e : exn)          (* Database error getting product details: {e} *)
| DbErrorFetchingDetails (e : exn).        (* Database error fetching transaction details: {e} *)

Inductive result (A : Type) :=
| Ok (a : A)
| Raise (e : exn).
Arguments Ok {A} a.
Arguments Raise {A} e.

(** Values the operations return on success. *)
Inductive confirmation :=
| ProductAdded (n k : string)              (* Product '{name}' ({sku}) added. *)
| ProductRemoved (n k : string).           (* Product '{name}' ({sku}) removed successfully. *)

(** The error taxonomy of the specification, and how the exceptions of
    the code read in it: the specific failures are [ValueError]s told
    apart by their message, every [RuntimeError] is the generic storage
    failure. *)
Inductive error_kind :=
| ValidationError | DuplicateKeyError | NotFoundError
| ReferentialIntegrityError | InsufficientStockError | StorageError.

Definition classify (e : exn) : error_kind :=
  match e with
  | ValueError MissingInfo => ValidationError
  | ValueError NegativePriceQuantity => ValidationError
  | ValueError (InvalidInput _) => ValidationError
  | ValueError SkuEmpty => ValidationError
  | ValueError EmptyBill => ValidationError
  | ValueError (SkuExists _) => DuplicateKeyError
  | ValueError (ProductNotFound _) => NotFoundError
  | ValueError (TransactionNotFound _) => NotFoundError
  | ValueError (CannotRemove _ _) => ReferentialIntegrityError
  | ValueError (InsufficientStock _ _ _) => InsufficientStockError
  | _ => StorageError
  end.

(** ** SQL statements

    Each statement maps the working database to a result and the new
    database, or fails with [sqlite3.IntegrityError] and changes nothing
    (statement-level abort). *)

Module Sql.

Definition has_sku (k : string) (p : product) : bool := String.eqb (sku p) k.

(** [1 + max(sqlite_sequence.seq, max(rowid))] *)
Definition next_rowid (seq : Z) (ids : list Z) : Z :=
  1 + fold_right Z.max seq ids.

(** An [int] parameter is bound as a 64-bit signed integer; one outside
    that range makes [execute] raise [OverflowError] before the
    statement runs. *)
Definition int64_min : Z := -9223372036854775808.
Definition int64_max : Z := 9223372036854775807.

Definition bindable (z : Z) : bool := (int64_min <=? z) && (z <=? int64_max).

(** [INSERT INTO products (sku, name, price, quantity) VALUES (?, ?, ?, ?)]
    with [CHECK(price >= 0)], [CHECK(quantity >= 0)] and the primary key
    on [sku]. *)
Definition insert_product (p : product) (d : db) : result (unit * db) :=
  if negb (bindable (quantity p)) then Raise OverflowError
  else if negb (Qle_bool 0 (price p) && (0 <=? quantity p)) then
    Raise (IntegrityError CheckFailed)
  else if existsb (has_sku (sku p)) (products d) then
    Raise (IntegrityError UniqueFailed)
  else
    Ok (tt, mkDb (products d ++ [p]) (transactions d) (transaction_items d)
                 (seq_transactions d) (seq_items d)).

(** [SELECT ... FROM products WHERE sku = ?] followed by [fetchone()]:
    the first row with that sku, of which each caller reads the columns
    it selected. *)
Definition select_product (k : string) (d : db) : option product :=
  find (has_sku k) (products d).

(** [DELETE FROM products WHERE sku = ?] under
    [FOREIGN KEY(product_sku) REFERENCES products(sku) ON DELETE RESTRICT];
    the result is [cursor.rowcount]. *)
Definition delete_product (k : string) (d : db) : result (Z * db) :=
  let hit := filter (has_sku k) (products d) in
  match hit with
  | [] => Ok (0, d)
  | _ :: _ =>
      if existsb (fun it => String.eqb (product_sku it) k) (transaction_items d)
      then Raise (IntegrityError ForeignKeyFailed)
      else Ok (Z.of_nat (List.length hit),
               mkDb (filter (fun p => negb (has_sku k p)) (products d))
                    (transactions d) (transaction_items d)
                    (seq_transactions d) (seq_items d))
  end.

(** [INSERT INTO transactions (total_amount) VALUES (?)]; the timestamp
    column takes its default, the clock reading [now]. The result is
    [cursor.lastrowid]. *)
Definition insert_transaction (now : string) (total : Q) (d : db)
  : result (Z * db) :=
  let id := next_rowid (seq_transactions d) (map transaction_id (transactions d)) in
  Ok (id, mkDb (products d) (transactions d ++ [mkTransaction id now total])
               (transaction_items d) id (seq_items d)).

(** [INSERT INTO transaction_items (transaction_id, product_sku,
    quantity_sold, price_at_sale) VALUES (?, ?, ?, ?)] with both foreign
    keys enforced. *)
Definition insert_item (tid : Z) (k : string) (q : Z) (pr : Q) (d : db)
  : result (unit * db) :=
  if negb (bindable q) then Raise OverflowError
  else if negb (existsb (fun t => transaction_id t =? tid) (transactions d)
           && existsb (has_sku k) (products d)) then
    Raise (IntegrityError ForeignKeyFailed)
  else
    let id := next_rowid (seq_items d) (map item_id (transaction_items d)) in
    Ok (tt, mkDb (products d) (transactions d)
                 (transaction_items d ++ [mkItem id tid k q pr])
                 (seq_transactions d) id).

Definition sell (k : string) (q : Z) (p : product) : product :=
  if has_sku k p then mkProduct (sku p) (name p) (price p) (quantity p - q) else p.

(** [UPDATE products SET quantity = quantity - ? WHERE sku = ?]; of the
    CHECKs, the one on the column written, [CHECK(quantity >= 0)], is
    verified on the rows the statement writes. The column is read as an
    integer: a difference beyond 64 bits, which SQLite would store as a
    REAL, has no counterpart here, and the theorems that follow a sale
    to its end keep stock levels within [int64_max]. *)
Definition update_stock (q : Z) (k : string) (d : db) : result (unit * db) :=
  let rows := map (sell k q) (products d) in
  if negb (bindable q) then Raise OverflowError
  else if forallb (fun p => 0 <=? quantity p) (filter (has_sku k) rows) then
    Ok (tt, mkDb rows (transactions d) (transaction_items d)
                 (seq_transactions d) (seq_items d))
  else Raise (IntegrityError CheckFailed).

(** [SELECT transaction_id, timestamp, total_amount FROM transactions
    WHERE transaction_id = ?] followed by [fetchone()]. *)
Definition select_transaction (tid : Z) (d : db) : option transaction :=
  find (fun t => transaction_id t =? tid) (transactions d).

(** [SELECT ti.quantity_sold, p.name, ti.product_sku, ti.price_at_sale
    FROM transaction_items ti JOIN products p ON ti.product_sku = p.sku
    WHERE ti.transaction_id = ?] followed by [fetchall()]. *)
Definition select_items (tid : Z) (d : db) : list (Z * string * string * Q) :=
  flat_map
    (fun it =>
       if ti_transaction_id it =? tid then
         map (fun p => (quantity_sold it, name p, product_sku it, price_at_sale it))
             (filter (has_sku (product_sku it)) (products d))
       else [])
    (transaction_items d).

(** [ORDER BY]: the rows in ascending order of [le]. SQL leaves the
    order of rows with equal keys open; here they stay in table order. *)
Fixpoint insert_row {A} (le : A -> A -> bool) (x : A) (l : list A) : list A :=
  match l with
  | [] => [x]
  | y :: l' => if le x y then x :: l else y :: insert_row le x l'
  end.

Definition order_by {A} (le : A -> A -> bool) (l : list A) : list A :=
  fold_right (insert_row le) [] l.

(** [ORDER BY name]: byte order of the text. *)
Definition by_name (p1 p2 : product) : bool := String.leb (name p1) (name p2).

(** [ORDER BY timestamp DESC] *)
Definition by_timestamp_desc (t1 t2 : transaction) : bool :=
  String.leb (timestamp t2) (timestamp t1).

(** [SELECT sku, name, price, quantity FROM products ORDER BY name] *)
Definition select_all_products (d : db) : list product :=
  order_by by_name (products d).

Definition lower_char (c : ascii) : ascii :=
  let n := nat_of_ascii c in
  if ((65 <=? n) && (n <=? 90))%nat then ascii_of_nat (n + 32) else c.

(** Two characters that [LIKE] takes for the same: equal up to the case
    of ASCII letters. *)
Definition like_char (c d : ascii) : bool :=
  Ascii.eqb (lower_char c) (lower_char d).

(** [s LIKE pat]: [%] stands for any run of characters, [_] for any one
    character, every other character for itself up to ASCII case. *)
Fixpoint like (pat s : string) : bool :=
  match pat with
  | EmptyString => match s with EmptyString => true | _ => false end
  | String c pat' =>
      if Ascii.eqb c "%" then
        (fix any (s : string) : bool :=
           like pat' s
           || match s with EmptyString => false | String _ s' => any s' end) s
      else
        match s with
        | EmptyString => false
        | String d s' => (Ascii.eqb c "_" || like_char c d) && like pat' s'
        end
  end.

(** [SELECT sku, name, price, quantity FROM products
    WHERE sku = ? OR name LIKE ? ORDER BY name] *)
Definition select_matching_products (k pat : string) (d : db) : list product :=
  order_by by_name
    (filter (fun p => String.eqb (sku p) k || like pat (name p)) (products d)).

(** [SELECT transaction_id, timestamp, total_amount FROM transactions
    ORDER BY timestamp DESC LIMIT ?]; a negative limit is no limit. *)
Definition select_history (limit : Z) (d : db) : result (list transaction) :=
  let rows := order_by by_timestamp_desc (transactions d) in
  if negb (bindable limit) then Raise OverflowError
  else Ok (if limit <? 0 then rows else firstn (Z.to_nat limit) rows).

End Sql.

(** ** Connections and the exception monad *)

Record conn := mkConn { committed : db; working : db }.

(** [get_db_connection()]: a connection on the database file, foreign
    keys switched on (the statements of [Sql] enforce them). *)
Definition get_db_connection (d : db) : conn := mkConn d d.

(** [conn.close()]: what has not been committed is lost. *)
Definition close (c : conn) : db := committed c.

(** A block of Python code acting on an open connection: it returns or
    raises, and leaves the connection in some state either way. *)
Definition M (A : Type) : Type := conn -> result A * conn.

Definition ret {A} (a : A) : M A := fun c => (Ok a, c).

Definition raise {A} (e : exn) : M A := fun c => (Raise e, c).

Definition bind {A B} (m : M A) (k : A -> M B) : M B :=
  fun c =>
    match m c with
    | (Ok a, c') => k a c'
    | (Raise e, c') => (Raise e, c')
    end.

Declare Scope py_scope.
Delimit Scope py_scope with py.
Notation "x <- m ;; k" := (bind m (fun x => k))
  (at level 100, m at next level, right associativity) : py_scope.
Notation "m ;; k" := (bind m (fun _ => k))
  (at level 100, right associativity) : py_scope.
Local Open Scope py_scope.

(** [try: body except ...: handler] *)
Definition try_except {A} (body : M A) (handler : exn -> M A) : M A :=
  fun c =>
    match body c with
    | (Ok a, c') => (Ok a, c')
    | (Raise e, c') => handler e c'
    end.

(** [cursor.execute(stmt)]: the first writing statement opens the
    transaction implicitly; statements act on the working copy. *)
Definition execute {A} (stmt : db -> result (A * db)) : M A :=
  fun c =>
    match stmt (working c) with
    | Ok (a, d') => (Ok a, mkConn (committed c) d')
    | Raise e => (Raise e, c)
    end.

(** A [SELECT]: reads the working copy. *)
Definition query {A} (q : db -> A) : M A := fun c => (Ok (q (working c)), c).

(** A [SELECT] with an [int] parameter [z]. *)
Definition query_int {A} (z : Z) (q : db -> A) : M A :=
  fun c =>
    if Sql.bindable z then (Ok (q (working c)), c) else (Raise OverflowError, c).

Definition commit : M unit :=
  fun c => (Ok tt, mkConn (working c) (working c)).

Definition rollback : M unit :=
  fun c => (Ok tt, mkConn (committed c) (committed c)).

(** [conn = get_db_connection(); try: body finally: conn.close()] *)
Definition with_connection {A} (body : M A) (d : db) : result A * db :=
  let (r, c) := body (get_db_connection d) in (r, close c).

(** ** Product management *)

Definition add_product (sku name : string) (price : Q) (quantity : Z) (d : db)
  : result confirmation * db :=
  if Py.not_str sku || Py.not_str name then (Raise (ValueError MissingInfo), d)
  else if Py.Qltb price 0 || (quantity <? 0) then
    (Raise (ValueError NegativePriceQuantity), d)
  else
    with_connection
      (try_except
         (execute (Sql.insert_product
                     (mkProduct (Py.upper (Py.strip sku)) (Py.strip name) price quantity)) ;;
          commit ;;
          ret (ProductAdded name sku))
         (fun e =>
            match e with
            | IntegrityError _ => rollback ;; raise (ValueError (SkuExists sku))
            | ValueError _ => rollback ;; raise (ValueError (InvalidInput e))
            | _ => rollback ;; raise (RuntimeError (DbErrorAdding e))
            end))
      d.

Definition remove_product (sku : string) (d : db) : result confirmation * db :=
  if Py.not_str sku then (Raise (ValueError SkuEmpty), d)
  else
    with_connection
      (try_except
         (product <- query (Sql.select_product sku) ;;
          match product with
          | None => raise (ValueError (ProductNotFound sku))
          | Some p =>
              rowcount <- execute (Sql.delete_product sku) ;;
              commit ;;
              if rowcount =? 0 then raise (RuntimeError (CouldNotDelete sku))
              else ret (ProductRemoved (name p) sku)
          end)
         (fun e =>
            match e with
            | IntegrityError _ => rollback ;; raise (ValueError (CannotRemove sku e))
            | _ => rollback ;; raise (RuntimeError (DbErrorRemoving e))
            end))
      d.

Definition get_product_details (sku : string) (d : db)
  : result (option product) * db :=
  with_connection
    (try_except
       (query (Sql.select_product sku))
       (fun e => raise (RuntimeError (DbErrorGettingProduct e))))
    d.

(** ** Billing *)

(** [sum(item[2] * item[3] for item in bill_items)]: left to right,
    starting from 0. *)
Definition bill_total (bill_items : list bill_item) : Q :=
  fold_left (fun acc it => Qplus acc (Qmult (b_price it) (inject_Z (b_qty it))))
            bill_items 0%Q.

(** One turn of the loop of [process_sale]. *)
Definition sale_item (transaction_id : Z) (it : bill_item) : M unit :=
  current_stock <- query (Sql.select_product (b_sku it)) ;;
  match current_stock with
  | None => raise (ValueError (InsufficientStock (b_name it) (b_sku it) 0))
  | Some p =>
      if quantity p <? b_qty it then
        raise (ValueError (InsufficientStock (b_name it) (b_sku it) (quantity p)))
      else
        execute (Sql.insert_item transaction_id (b_sku it) (b_qty it) (b_price it)) ;;
        execute (Sql.update_stock (b_qty it) (b_sku it))
  end.

Fixpoint sale_loop (transaction_id : Z) (bill_items : list bill_item) : M unit :=
  match bill_items with
  | [] => ret tt
  | it :: rest => sale_item transaction_id it ;; sale_loop transaction_id rest
  end.

(** [process_sale(bill_items)]; [now] is the clock reading SQLite stamps
    the transaction row with. *)
Definition process_sale (now : string) (bill_items : list bill_item) (d : db)
  : result Z * db :=
  match bill_items with
  | [] => (Raise (ValueError EmptyBill), d)
  | _ :: _ =>
      let current_total := bill_total bill_items in
      with_connection
        (try_except
           (transaction_id <- execute (Sql.insert_transaction now current_total) ;;
            sale_loop transaction_id bill_items ;;
            commit ;;
            ret transaction_id)
           (fun e =>
              rollback ;;
              match e with
              | ValueError _ => raise e
              | _ => raise (RuntimeError (DbErrorCheckout e))
              end))
        d
  end.

(** ** Receipts *)

Definition get_transaction_details (transaction_id : Z) (d : db)
  : result (transaction * list (Z * string * string * Q)) * db :=
  with_connection
    (try_except
       (trans_info <- query_int transaction_id
                        (Sql.select_transaction transaction_id) ;;
        match trans_info with
        | None => raise (ValueError (TransactionNotFound transaction_id))
        | Some t =>
            items <- query_int transaction_id
                       (Sql.select_items transaction_id) ;;
            ret (t, items)
        end)
       (fun e => raise (RuntimeError (DbErrorFetchingDetails e))))
    d.

(** ** Listings

    The three listing functions wrap their query in [try] with one
    handler, [except Exception], that raises [RuntimeError] with a
    message of their own. *)

Inductive listing_message :=
| DbErrorFetchingProducts (e : exn)        (* Database error fetching products: {e} *)
| DbErrorSearchingProducts (e : exn)       (* Database error searching products: {e} *)
| DbErrorFetchingHistory (e : exn).        (* Database error fetching transaction history: {e} *)

Inductive listing (A : Type) :=
| Rows (a : A)
| ListingRuntimeError (m : listing_message).
Arguments Rows {A} a.
Arguments ListingRuntimeError {A} m.

Definition listing_of {A} (wrap : exn -> listing_message) (body : M A) (d : db)
  : listing A * db :=
  let (r, c) := body (get_db_connection d) in
  (match r with
   | Ok a => Rows a
   | Raise e => ListingRuntimeError (wrap e)
   end, close c).

Definition get_all_products (d : db) : listing (list product) * db :=
  listing_of DbErrorFetchingProducts (query Sql.select_all_products) d.

Definition find_products (search_term : string) (d : db)
  : listing (list product) * db :=
  let search_pattern := ("%" ++ search_term ++ "%")%string in
  listing_of DbErrorSearchingProducts
    (query (Sql.select_matching_products (Py.upper (Py.strip search_term))
              search_pattern))
    d.

(** [get_transaction_history(limit)]; the default [limit] is 50. *)
Definition get_transaction_history (limit : Z) (d : db)
  : listing (list transaction) * db :=
  listing_of DbErrorFetchingHistory
    (fun c =>
       match Sql.select_history limit (working c) with
       | Ok rows => (Ok rows, c)
       | Raise e => (Raise e, c)
       end)
    d.

(** ** The billing screen (gui_app.py)

    The state the screen keeps between clicks and the parts of its
    handlers that compute on it; [add_selected_to_bill] takes the values
    of the selected row and of the quantity field once they are parsed. *)

Module Gui.

Record bill := mkBillState
  { current_bill_items : list bill_item; current_bill_total : Q }.

(** [start_billing_mode] *)
Definition start_billing_mode : bill := mkBillState [] 0%Q.

Inductive notice :=
| InvalidSelection                         (* Please select a valid product row. *)
| QuantityMustBePositive                   (* Quantity must be positive. *)
| NotEnoughStock (n : string) (stock : Z)  (* Not enough stock for '{name}'. Only {stock} available. *)
| AddedToBill (q : Z) (n : string).        (* Added {qty_to_add} x {name} to bill. *)

(** [add_selected_to_bill] on the selected row [(sku, name, price, stock)]
    and the quantity typed. *)
Definition add_selected_to_bill (sku name : string) (price : Q) (stock : Z)
    (qty_to_add : Z) (st : bill) : notice * bill :=
  if Py.not_str sku then (InvalidSelection, st)
  else if qty_to_add <=? 0 then (QuantityMustBePositive, st)
  else if stock <? qty_to_add then (NotEnoughStock name stock, st)
  else
    (AddedToBill qty_to_add name,
     mkBillState (current_bill_items st ++ [mkBill sku name price qty_to_add])
                 (current_bill_total st + price * inject_Z qty_to_add)%Q).

(** One turn of the loop of [process_checkout] that fills the
    dictionary [aggregated]; the dictionary is the list of its entries
    in insertion order. *)
Definition aggregate_item (aggregated : list bill_item) (it : bill_item)
  : list bill_item :=
  let aggregated :=
    if existsb (fun e => String.eqb (b_sku e) (b_sku it)) aggregated
    then aggregated
    else aggregated ++ [mkBill (b_sku it) (b_name it) (b_price it) 0] in
  map (fun e =>
         if String.eqb (b_sku e) (b_sku it)
         then mkBill (b_sku e) (b_name e) (b_price e) (b_qty e + b_qty it)
         else e)
      aggregated.

(** The list [final_bill_items] that [process_checkout] hands to
    [process_sale]. *)
Definition final_bill_items (current_bill_items : list bill_item)
  : list bill_item :=
  fold_left aggregate_item current_bill_items [].

(** One turn of the loop of [display_current_bill] that fills the
    dictionary [temp_bill_summary]. *)
Definition summarize_item (temp_bill_summary : list bill_item) (it : bill_item)
  : list bill_item :=
  if existsb (fun e => String.eqb (b_sku e) (b_sku it)) temp_bill_summary
  then map (fun e =>
              if String.eqb (b_sku e) (b_sku it)
              then mkBill (b_sku e) (b_name e) (b_price e) (b_qty e + b_qty it)
              else e)
           temp_bill_summary
  else temp_bill_summary ++ [mkBill (b_sku it) (b_name it) (b_price it) (b_qty it)].

(** The rows [display_current_bill] puts on the screen, before the
    price is formatted. *)
Definition display_current_bill (current_bill_items : list bill_item)
  : list bill_item :=
  fold_left summarize_item current_bill_items [].

(** What holds of the bill on the screen between clicks: the running
    total is the sum over the entries in the order they were added, and
    every entry has a sku and a positive quantity. *)
Definition bill_inv (st : bill) : Prop :=
  current_bill_total st = bill_total (current_bill_items st) /\
  Forall (fun it => b_sku it <> EmptyString /\ 0 < b_qty it)
         (current_bill_items st).

End Gui.

(** ** Readings of the specification's words *)

(** Quantity of product [k] sold by a bill: duplicate entries add up. *)
Fixpoint sold_of (k : string) (bill_items : list bill_item) : Z :=
  match bill_items with
  | [] => 0
  | it :: rest =>
      (if String.eqb (b_sku it) k then b_qty it else 0) + sold_of k rest
  end.

(** The sum of [unitPrice * quantitySold] over the line items. *)
Fixpoint line_sum (bill_items : list bill_item) : Q :=
  match bill_items with
  | [] => 0%Q
  | it :: rest => (b_price it * inject_Z (b_qty it) + line_sum rest)%Q
  end.

(** Entry [e] has the sku, the name and the price of the first entry of
    its sku in [items]. *)
Definition first_of (e : bill_item) (items : list bill_item) : Prop :=
  exists pre it post,
    items = pre ++ it :: post /\
    ~ In (b_sku e) (map b_sku pre) /\
    b_sku it = b_sku e /\ b_name e = b_name it /\ b_price e = b_price it.

(** A product row after a bill has been sold from it. *)
Definition after_sale (bill_items : list bill_item) (p : product) : product :=
  mkProduct (sku p) (name p) (price p) (quantity p - sold_of (sku p) bill_items).

(** What a line-item row records besides its own id. *)
Definition payload (r : transaction_item) : Z * string * Z * Q :=
  (ti_transaction_id r, product_sku r, quantity_sold r, price_at_sale r).

(** The working database [process_sale] holds when it has gone through
    the items [pre] of [bill_items] without raising, if it does. *)
Definition reaches (now : string) (bill_items pre : list bill_item) (d : db)
  : option db :=
  match Sql.insert_transaction now (bill_total bill_items) d with
  | Ok (tid, d1) =>
      match sale_loop tid pre (mkConn d d1) with
      | (Ok _, c) => Some (working c)
      | (Raise _, _) => None
      end
  | Raise _ => None
  end.

(** The schema constraints on [products]: both CHECKs and the primary key. *)
Definition row_ok (p : product) : Prop := (0 <= price p)%Q /\ 0 <= quantity p.

Definition catalog_inv (d : db) : Prop :=
  Forall row_ok (products d) /\ NoDup (map sku (products d)).

(** The mutating operations of the data layer. *)
Inductive operation :=
| AddProduct (sku name : string) (price : Q) (quantity : Z)
| RemoveProduct (sku : string)
| Checkout (now : string) (bill_items : list bill_item).

Definition apply_op (o : operation) (d : db) : db :=
  match o with
  | AddProduct k n pr q => snd (add_product k n pr q d)
  | RemoveProduct k => snd (remove_product k d)
  | Checkout now bill => snd (process_sale now bill d)
  end.

(** The line items of transaction [tid], in the order of the table, read
    back as the bill they record: sku, price and quantity of each line.
    The name of a line is not recorded; it plays no part in a total. *)
Definition recorded_bill (tid : Z) (items : list transaction_item)
  : list bill_item :=
  map (fun r => mkBill (product_sku r) EmptyString
                       (price_at_sale r) (quantity_sold r))
      (filter (fun r => ti_transaction_id r =? tid) items).

(** The total [process_sale] computes, [bill_total], of the bill the
    line items of transaction [tid] record. *)
Definition ledger_total (tid : Z) (items : list transaction_item) : Q :=
  bill_total (recorded_bill tid items).

(** The ledger is sound: transaction ids are unique, every line item
    belongs to a transaction and names a product, and the total of every
    transaction is the number that the sum of [process_sale] gives on
    the bill its line items record. The last part equates two results
    of one computation on the same numbers in the same order; no law of
    arithmetic enters it. *)
Definition ledger_inv (d : db) : Prop :=
  NoDup (map transaction_id (transactions d)) /\
  (forall r, In r (transaction_items d) ->
     In (ti_transaction_id r) (map transaction_id (transactions d)) /\
     In (product_sku r) (map sku (products d))) /\
  (forall t, In t (transactions d) ->
     total_amount t = ledger_total (transaction_id t) (transaction_items d)).

(** Whether an operation raises. *)
Definition raises (o : operation) (d : db) : bool :=
  match o with
  | AddProduct k n pr q =>
      match fst (add_product k n pr q d) with Raise _ => true | Ok _ => false end
  | RemoveProduct k =>
      match fst (remove_product k d) with Raise _ => true | Ok _ => false end
  | Checkout now bill =>
      match fst (process_sale now bill d) with Raise _ => true | Ok _ => false end
  end.

(** The sku as [add_product] and [find_products] normalize it. *)
Definition normalize_sku (k : string) : string := Py.upper (Py.strip k).



(** ** Example stores, built through the operations themselves *)

Definition widget_store : db :=
  snd (add_product "sku1" " Widget " (999 # 100) 5 init_db).

Definition blank_sku_store : db :=
  snd (add_product "   " "Widget" 1 5 init_db).

Definition blank_sku_sold : db :=
  snd (process_sale "2024-01-01 10:00:00" [mkBill EmptyString "Widget" 1 1]
         blank_sku_store).

(** The widget store after three widgets were sold. *)
Definition widget_sold : db :=
  mkDb [mkProduct "SKU1" "Widget" (999 # 100) 2]
       [mkTransaction 1 "2024-01-01 10:00:00" (2997 # 100)]
       [mkItem 1 1 "SKU1" 3 (999 # 100)] 1 1.

(** A bill with a negative price and a negative quantity. *)
Definition negative_bill : list bill_item :=
  [mkBill "SKU1" "Widget" (-1) 1; mkBill "SKU1" "Widget" 2 (-3)].



(** * Proofs *)

(** Unfolds the plumbing of a call: the connection, the [try] block and
    the statements run on it. *)
Ltac run_connection :=
  unfold with_connection, try_except, bind, query, query_int, execute, commit,
    get_db_connection;
  cbn [working committed].

(** ** The loop of [process_sale] *)

Lemma sale_item_committed tid it c :
  committed (snd (sale_item tid it c)) = committed c.
Proof.
  unfold sale_item, bind, query, execute, raise.
  destruct (Sql.select_product (b_sku it) (working c)) as [p|]; [|reflexivity].
  destruct (quantity p <? b_qty it); [reflexivity|].
  destruct (Sql.insert_item tid (b_sku it) (b_qty it) (b_price it) (working c))
    as [[[] d1]|e]; [|reflexivity].
  simpl. destruct (Sql.update_stock (b_qty it) (b_sku it) d1) as [[[] d2]|e];
    reflexivity.
Qed.

Lemma sale_loop_committed tid bill c :
  committed (snd (sale_loop tid bill c)) = committed c.
Proof.
  revert c. induction bill as [|it rest IH]; intros c; [reflexivity|].
  simpl. unfold bind.
  pose proof (sale_item_committed tid it c) as Hc.
  destruct (sale_item tid it c) as [[[]|e] c1]; simpl in *.
  - rewrite IH. exact Hc.
  - exact Hc.
Qed.

Lemma sale_loop_app tid pre rest c :
  sale_loop tid (pre ++ rest) c =
  match sale_loop tid pre c with
  | (Ok _, c1) => sale_loop tid rest c1
  | (Raise e, c1) => (Raise e, c1)
  end.
Proof.
  revert c. induction pre as [|it pre IH]; intros c; [reflexivity|].
  simpl. unfold bind.
  destruct (sale_item tid it c) as [[[]|e] c1]; [apply IH|reflexivity].
Qed.

(** [process_sale] on a non-empty bill, in terms of its loop: the
    handler undoes everything unless the loop came through. *)
Lemma process_sale_run now bill d :
  bill <> [] ->
  let tid := Sql.next_rowid (seq_transactions d)
               (map transaction_id (transactions d)) in
  let d1 := mkDb (products d)
              (transactions d ++ [mkTransaction tid now (bill_total bill)])
              (transaction_items d) tid (seq_items d) in
  process_sale now bill d =
  match sale_loop tid bill (mkConn d d1) with
  | (Ok _, c) => (Ok tid, working c)
  | (Raise (ValueError m), _) => (Raise (ValueError m), d)
  | (Raise e, _) => (Raise (RuntimeError (DbErrorCheckout e)), d)
  end.
Proof.
  intros Hne tid d1. destruct bill as [|it rest]; [congruence|].
  unfold process_sale, with_connection, try_except, bind, execute,
    get_db_connection, Sql.insert_transaction.
  cbn [working committed]. fold tid. fold d1.
  pose proof (sale_loop_committed tid (it :: rest) (mkConn d d1)) as Hc.
  destruct (sale_loop tid (it :: rest) (mkConn d d1)) as [[[]|e] c1].
  - reflexivity.
  - cbn in Hc. destruct e; cbn; rewrite ?Hc; reflexivity.
Qed.

(** Every failure of [process_sale] leaves the database as it was. *)
Lemma process_sale_raise_unchanged now bill d e d' :
  process_sale now bill d = (Raise e, d') -> d' = d.
Proof.
  destruct bill as [|it rest]; [intros H; injection H as _ <-; reflexivity|].
  rewrite process_sale_run by discriminate.
  destruct (sale_loop _ (it :: rest) _) as [[[]|e1] c1]; [discriminate|].
  destruct e1; intros H; injection H as _ <-; reflexivity.
Qed.

(** The loop stops at the first item that finds less stock than it
    asks for, and the handler undoes what the earlier items did. *)
Lemma process_sale_stops now pre it post d c1 p :
  sale_loop
    (Sql.next_rowid (seq_transactions d) (map transaction_id (transactions d)))
    pre
    (mkConn d
       (mkDb (products d)
          (transactions d ++
             [mkTransaction
                (Sql.next_rowid (seq_transactions d)
                   (map transaction_id (transactions d)))
                now (bill_total (pre ++ it :: post))])
          (transaction_items d)
          (Sql.next_rowid (seq_transactions d)
             (map transaction_id (transactions d)))
          (seq_items d)))
  = (Ok tt, c1) ->
  Sql.select_product (b_sku it) (working c1) = Some p ->
  quantity p < b_qty it ->
  process_sale now (pre ++ it :: post) d =
    (Raise (ValueError (InsufficientStock (b_name it) (b_sku it) (quantity p))), d).
Proof.
  intros Hpre Hsel Hlt.
  rewrite process_sale_run by (destruct pre; discriminate).
  rewrite sale_loop_app, Hpre.
  simpl. unfold bind, sale_item, query. unfold bind. rewrite Hsel.
  apply Z.ltb_lt in Hlt. rewrite Hlt. reflexivity.
Qed.

(** C1: when the loop of [process_sale] gets to an item whose
    [quantity_sold] exceeds the stock it re-reads for that product, the
    call raises the insufficient-stock [ValueError] for that item and the
    database is the one before the call: no quantity changed, no
    transaction row, no line-item row. *)
Theorem process_sale_insufficient_stock now pre it post d w p :
  reaches now (pre ++ it :: post) pre d = Some w ->
  Sql.select_product (b_sku it) w = Some p ->
  quantity p < b_qty it ->
  process_sale now (pre ++ it :: post) d =
    (Raise (ValueError (InsufficientStock (b_name it) (b_sku it) (quantity p))), d)
  /\ classify (ValueError (InsufficientStock (b_name it) (b_sku it) (quantity p)))
     = InsufficientStockError.
Proof.
  intros Hreach Hsel Hlt. split; [|reflexivity].
  unfold reaches, Sql.insert_transaction in Hreach.
  destruct (sale_loop _ pre _) as [[[]|e] c1] eqn:Hpre; [|discriminate].
  injection Hreach as <-.
  apply (process_sale_stops now pre it post d c1 p Hpre Hsel Hlt).
Qed.

(** Five widgets in stock, a bill of three and three again: the second
    entry finds two left. *)
Lemma process_sale_insufficient_stock_witness :
  process_sale "2024-01-01 10:00:00"
    ([mkBill "SKU1" "Widget" (999 # 100) 3] ++
      mkBill "SKU1" "Widget" (999 # 100) 3 :: [])
    widget_store =
    (Raise (ValueError (InsufficientStock "Widget" "SKU1" 2)), widget_store)
  /\ classify (ValueError (InsufficientStock "Widget" "SKU1" 2))
     = InsufficientStockError.
Proof.
  apply (process_sale_insufficient_stock "2024-01-01 10:00:00"
           [mkBill "SKU1" "Widget" (999 # 100) 3]
           (mkBill "SKU1" "Widget" (999 # 100) 3) [] widget_store
           (mkDb [mkProduct "SKU1" "Widget" (999 # 100) 2]
                 [mkTransaction 1 "2024-01-01 10:00:00"
                    (bill_total [mkBill "SKU1" "Widget" (999 # 100) 3;
                                 mkBill "SKU1" "Widget" (999 # 100) 3])]
                 [mkItem 1 1 "SKU1" 3 (999 # 100)] 1 1)
           (mkProduct "SKU1" "Widget" (999 # 100) 2)).
  - reflexivity.
  - reflexivity.
  - simpl. lia.
Defined.

(** *** Facts on the catalog table *)

Lemma has_sku_true k p : Sql.has_sku k p = true <-> sku p = k.
Proof. unfold Sql.has_sku. apply String.eqb_eq. Qed.

Lemma sku_sell k q p : sku (Sql.sell k q p) = sku p.
Proof. unfold Sql.sell. destruct (Sql.has_sku k p); reflexivity. Qed.

Lemma map_sku_sell k q l : map sku (map (Sql.sell k q) l) = map sku l.
Proof.
  rewrite map_map. apply map_ext. intros p. apply sku_sell.
Qed.

Lemma existsb_has_sku k l :
  existsb (Sql.has_sku k) l = true <-> In k (map sku l).
Proof.
  rewrite existsb_exists, in_map_iff. split.
  - intros [p [Hin Hp]]. exists p. split; [apply has_sku_true, Hp|exact Hin].
  - intros [p [Hp Hin]]. exists p. split; [exact Hin|apply has_sku_true, Hp].
Qed.

Lemma find_has_sku_none k l :
  find (Sql.has_sku k) l = None <-> ~ In k (map sku l).
Proof.
  rewrite <- existsb_has_sku. split.
  - intros Hf He. apply existsb_exists in He. destruct He as [p [Hin Hp]].
    apply (find_none _ _ Hf) in Hin. congruence.
  - intros Hn. destruct (find (Sql.has_sku k) l) as [p|] eqn:Hf; [|reflexivity].
    exfalso. apply Hn. apply find_some in Hf. apply existsb_exists.
    exists p. exact Hf.
Qed.

(** Under the primary key a sku names one row. *)
Lemma pk_row_unique l p p' :
  NoDup (map sku l) -> In p l -> In p' l -> sku p = sku p' -> p = p'.
Proof.
  induction l as [|x l IH]; simpl; intros Hnd Hp Hp' He; [contradiction|].
  inversion Hnd as [|? ? Hx Hl]; subst.
  destruct Hp as [->|Hp], Hp' as [->|Hp'].
  - reflexivity.
  - exfalso. apply Hx. rewrite He. apply in_map. exact Hp'.
  - exfalso. apply Hx. rewrite <- He. apply in_map. exact Hp.
  - apply IH; assumption.
Qed.

Lemma pk_find l p :
  NoDup (map sku l) -> In p l -> find (Sql.has_sku (sku p)) l = Some p.
Proof.
  intros Hnd Hin.
  destruct (find (Sql.has_sku (sku p)) l) as [p'|] eqn:Hf.
  - apply find_some in Hf. destruct Hf as [Hin' Hs]. apply has_sku_true in Hs.
    f_equal. apply (pk_row_unique l); assumption.
  - apply find_has_sku_none in Hf. exfalso. apply Hf. apply in_map. exact Hin.
Qed.

(** *** One turn of the loop *)

(** What a turn that comes through has done. *)
Lemma sale_item_ok tid it c c' :
  sale_item tid it c = (Ok tt, c') ->
  committed c' = committed c /\
  products (working c') =
    map (Sql.sell (b_sku it) (b_qty it)) (products (working c)) /\
  transactions (working c') = transactions (working c) /\
  seq_transactions (working c') = seq_transactions (working c) /\
  exists r, transaction_items (working c') = transaction_items (working c) ++ [r]
            /\ payload r = (tid, b_sku it, b_qty it, b_price it).
Proof.
  unfold sale_item, bind, query, execute, raise.
  destruct (Sql.select_product (b_sku it) (working c)) as [p|]; [|discriminate].
  destruct (quantity p <? b_qty it); [discriminate|].
  unfold Sql.insert_item, Sql.update_stock.
  destruct (Sql.bindable (b_qty it)); [|discriminate]. cbn [negb].
  destruct (negb _); [discriminate|].
  cbn [working committed products transactions transaction_items
       seq_transactions seq_items].
  destruct (forallb _ _); [|discriminate].
  intros H. injection H as <-. cbn.
  repeat split. eexists. split; reflexivity.
Qed.

(** A turn that comes through has bound its quantity. *)
Lemma sale_item_ok_bindable tid it c c' :
  sale_item tid it c = (Ok tt, c') -> Sql.bindable (b_qty it) = true.
Proof.
  unfold sale_item, bind, query, execute, raise.
  destruct (Sql.select_product (b_sku it) (working c)) as [p|]; [|discriminate].
  destruct (quantity p <? b_qty it); [discriminate|].
  unfold Sql.insert_item.
  destruct (Sql.bindable (b_qty it)); [reflexivity|discriminate].
Qed.

(** With the primary key in force and the transaction row in place, a
    turn whose quantity can be bound either comes through or raises the
    stock error of its item. *)
Lemma sale_item_cases tid it c :
  NoDup (map sku (products (working c))) ->
  existsb (fun t => transaction_id t =? tid) (transactions (working c)) = true ->
  Sql.bindable (b_qty it) = true ->
  (exists c' p, sale_item tid it c = (Ok tt, c') /\
                Sql.select_product (b_sku it) (working c) = Some p /\
                b_qty it <= quantity p)
  \/
  (exists left,
      sale_item tid it c =
        (Raise (ValueError (InsufficientStock (b_name it) (b_sku it) left)), c) /\
      match Sql.select_product (b_sku it) (working c) with
      | None => left = 0
      | Some p => left = quantity p /\ quantity p < b_qty it
      end).
Proof.
  intros Hnd Htx Hb.
  unfold sale_item, bind, query, execute, raise.
  destruct (Sql.select_product (b_sku it) (working c)) as [p|] eqn:Hsel.
  2:{ right. exists 0. split; reflexivity. }
  destruct (quantity p <? b_qty it) eqn:Hlt.
  { right. exists (quantity p). apply Z.ltb_lt in Hlt. repeat split. exact Hlt. }
  left. apply Z.ltb_ge in Hlt.
  unfold Sql.select_product in Hsel.
  pose proof (find_some _ _ Hsel) as [Hin Hk]. apply has_sku_true in Hk.
  unfold Sql.insert_item. rewrite Hb, Htx.
  assert (He : existsb (Sql.has_sku (b_sku it)) (products (working c)) = true).
  { apply existsb_has_sku. rewrite <- Hk. apply in_map. exact Hin. }
  rewrite He. cbn [andb negb working committed].
  unfold Sql.update_stock. cbn [products transactions transaction_items
                                seq_transactions seq_items].
  rewrite Hb. cbn [negb].
  assert (Hck : forallb (fun p0 => 0 <=? quantity p0)
                  (filter (Sql.has_sku (b_sku it))
                     (map (Sql.sell (b_sku it) (b_qty it))
                        (products (working c)))) = true).
  { apply forallb_forall. intros x Hx. apply filter_In in Hx.
    destruct Hx as [Hx Hxs]. apply in_map_iff in Hx.
    destruct Hx as [p' [<- Hp']].
    apply has_sku_true in Hxs. rewrite sku_sell in Hxs.
    assert (p' = p) as ->.
    { apply (pk_row_unique (products (working c))); try assumption. congruence. }
    unfold Sql.sell. replace (Sql.has_sku (b_sku it) p) with true
      by (symmetry; apply has_sku_true; exact Hk).
    cbn. apply Z.leb_le. lia. }
  rewrite Hck. eexists. exists p. repeat split. exact Hlt.
Qed.

(** *** The whole loop *)

Lemma after_sale_cons it rest p :
  after_sale rest (Sql.sell (b_sku it) (b_qty it) p) = after_sale (it :: rest) p.
Proof.
  unfold after_sale, Sql.sell, Sql.has_sku. cbn [sold_of].
  rewrite (String.eqb_sym (b_sku it) (sku p)).
  destruct (String.eqb (sku p) (b_sku it)); cbn; f_equal; lia.
Qed.

(** What a loop that comes through has done: stock taken from each
    product as the bill says, one line-item row per entry, the other
    tables as they were. *)
Lemma sale_loop_ok tid bill c c' :
  sale_loop tid bill c = (Ok tt, c') ->
  products (working c') = map (after_sale bill) (products (working c)) /\
  transactions (working c') = transactions (working c) /\
  seq_transactions (working c') = seq_transactions (working c) /\
  exists created,
    transaction_items (working c') = transaction_items (working c) ++ created /\
    map payload created =
      map (fun it => (tid, b_sku it, b_qty it, b_price it)) bill.
Proof.
  revert c. induction bill as [|it rest IH]; intros c.
  - cbn. intros H. injection H as <-. repeat split.
    + unfold after_sale. cbn. rewrite <- (map_id (products (working c))) at 1.
      apply map_ext. intros [k n pr q]. cbn. f_equal. lia.
    + exists []. split; [symmetry; apply app_nil_r|reflexivity].
  - cbn [sale_loop]. unfold bind at 1.
    destruct (sale_item tid it c) as [[[]|e] c1] eqn:Hit; [|discriminate].
    intros Hrest. apply sale_item_ok in Hit.
    destruct Hit as (_ & Hp & Ht & Hs & r & Hi & Hr).
    apply IH in Hrest. destruct Hrest as (Hp' & Ht' & Hs' & created & Hi' & Hc).
    repeat split.
    + rewrite Hp', Hp, map_map. apply map_ext. intros p. apply after_sale_cons.
    + congruence.
    + congruence.
    + exists (r :: created). split.
      * rewrite Hi', Hi, <- app_assoc. reflexivity.
      * cbn [map]. rewrite Hr, Hc. reflexivity.
Qed.

(** The stock [process_sale] re-reads for an item is the stock before
    the call less what the earlier entries of the bill sold. *)
Lemma reaches_products now bill pre d w :
  reaches now bill pre d = Some w ->
  products w = map (after_sale pre) (products d).
Proof.
  unfold reaches, Sql.insert_transaction.
  destruct (sale_loop _ pre _) as [[[]|e] c] eqn:Hrun; [|discriminate].
  intros H. injection H as <-.
  apply sale_loop_ok in Hrun. apply Hrun.
Qed.


(** *** The total *)

Lemma bill_total_from acc bill :
  (fold_left (fun a it => a + b_price it * inject_Z (b_qty it)) bill acc
   == acc + line_sum bill)%Q.
Proof.
  revert acc. induction bill as [|it rest IH]; intros acc; cbn.
  - ring.
  - rewrite IH. ring.
Qed.

(** The running sum of the code is the sum of the line amounts. *)
Lemma bill_total_line_sum bill : (bill_total bill == line_sum bill)%Q.
Proof. unfold bill_total. rewrite bill_total_from. ring. Qed.

Lemma line_sum_nonneg bill :
  Forall (fun it => 0 < b_qty it /\ (0 <= b_price it)%Q) bill ->
  (0 <= line_sum bill)%Q.
Proof.
  induction 1 as [|it rest [Hq Hp] _ IH]; cbn.
  - apply Qle_refl.
  - assert (Hm : (0 <= b_price it * inject_Z (b_qty it))%Q).
    { apply Qmult_le_0_compat; [exact Hp|].
      unfold Qle. cbn. lia. }
    replace 0%Q with (0 + 0)%Q by reflexivity.
    apply Qplus_le_compat; assumption.
Qed.

(** *** Fresh transaction ids *)

Lemma fold_max_ge seq ids : seq <= fold_right Z.max seq ids.
Proof. induction ids as [|x l IH]; cbn; lia. Qed.

Lemma fold_max_in seq ids x : In x ids -> x <= fold_right Z.max seq ids.
Proof.
  induction ids as [|y l IH]; cbn; [contradiction|].
  intros [->|Hin]; [lia|]. specialize (IH Hin). lia.
Qed.

Lemma next_rowid_fresh seq ids : ~ In (Sql.next_rowid seq ids) ids.
Proof.
  unfold Sql.next_rowid. intros Hin. apply (fold_max_in seq) in Hin. lia.
Qed.

Lemma existsb_new_transaction tid now total l :
  existsb (fun t => transaction_id t =? tid) (l ++ [mkTransaction tid now total])
  = true.
Proof.
  rewrite existsb_app. cbn. rewrite Z.eqb_refl, orb_true_r. reflexivity.
Qed.

(** ** Checkout that goes through *)

(** The loop comes through when every quantity can be bound and every
    item finds its product with enough stock left after the earlier
    items of the same sku. *)
Lemma sale_loop_succeeds tid bill c :
  NoDup (map sku (products (working c))) ->
  existsb (fun t => transaction_id t =? tid) (transactions (working c)) = true ->
  Forall (fun it => Sql.bindable (b_qty it) = true) bill ->
  (forall pre it post, bill = pre ++ it :: post ->
     exists p, In p (products (working c)) /\ sku p = b_sku it /\
               sold_of (b_sku it) pre + b_qty it <= quantity p) ->
  exists c', sale_loop tid bill c = (Ok tt, c').
Proof.
  revert c. induction bill as [|it rest IH]; intros c Hnd Htx Hbind Hall.
  - exists c. reflexivity.
  - cbn [sale_loop]. unfold bind.
    inversion Hbind as [|? ? Hb Hbrest]; subst.
    destruct (Hall [] it rest eq_refl) as (p & Hin & Hk & Hq). cbn in Hq.
    assert (Hsel : Sql.select_product (b_sku it) (working c) = Some p).
    { unfold Sql.select_product. rewrite <- Hk. apply pk_find; assumption. }
    destruct (sale_item_cases tid it c Hnd Htx Hb)
      as [(c1 & p1 & Hrun & _ & _)|(left & _ & Hleft)].
    2:{ rewrite Hsel in Hleft. lia. }
    rewrite Hrun. pose proof (sale_item_ok _ _ _ _ Hrun) as (_ & Hp & Ht & _).
    apply IH.
    + rewrite Hp, map_sku_sell. exact Hnd.
    + rewrite Ht. exact Htx.
    + exact Hbrest.
    + intros pre it' post Heq.
      destruct (Hall (it :: pre) it' post) as (p' & Hin' & Hk' & Hq').
      { rewrite Heq. reflexivity. }
      exists (Sql.sell (b_sku it) (b_qty it) p'). rewrite Hp. repeat split.
      * apply in_map. exact Hin'.
      * rewrite sku_sell. exact Hk'.
      * cbn [sold_of] in Hq'. unfold Sql.sell, Sql.has_sku.
        rewrite Hk', (String.eqb_sym (b_sku it') (b_sku it)).
        destruct (String.eqb (b_sku it) (b_sku it')); cbn; lia.
Qed.

(** The same failure told from the stock before the call: the earlier
    entries go through, and the item asks for more than its product has
    left once they are served. *)
Lemma process_sale_shortfall now pre it post d p :
  NoDup (map sku (products d)) ->
  Forall (fun it' => Sql.bindable (b_qty it') = true) pre ->
  (forall pre' it' post', pre = pre' ++ it' :: post' ->
     exists p', In p' (products d) /\ sku p' = b_sku it' /\
                sold_of (b_sku it') pre' + b_qty it' <= quantity p') ->
  In p (products d) -> sku p = b_sku it ->
  quantity p - sold_of (b_sku it) pre < b_qty it ->
  process_sale now (pre ++ it :: post) d =
    (Raise (ValueError (InsufficientStock (b_name it) (b_sku it)
                          (quantity p - sold_of (b_sku it) pre))), d).
Proof.
  intros Hnd Hbind Hpre Hin Hk Hlt.
  set (tid := Sql.next_rowid (seq_transactions d)
                (map transaction_id (transactions d))).
  set (d1 := mkDb (products d)
               (transactions d ++
                  [mkTransaction tid now (bill_total (pre ++ it :: post))])
               (transaction_items d) tid (seq_items d)).
  destruct (sale_loop_succeeds tid pre (mkConn d d1)) as [c1 Hrun].
  - exact Hnd.
  - apply existsb_new_transaction.
  - exact Hbind.
  - exact Hpre.
  - pose proof (sale_loop_ok _ _ _ _ Hrun) as (Hp & _). cbn in Hp.
    assert (Hsel : Sql.select_product (b_sku it) (working c1)
                   = Some (after_sale pre p)).
    { unfold Sql.select_product. rewrite Hp, <- Hk.
      change (sku p) with (sku (after_sale pre p)).
      apply pk_find.
      - rewrite map_map. cbn. exact Hnd.
      - apply in_map. exact Hin. }
    pose proof (process_sale_stops now pre it post d c1 (after_sale pre p)
                  Hrun Hsel) as Hstop.
    cbn [after_sale quantity sku] in Hstop. rewrite Hk in Hstop.
    apply Hstop, Hlt.
Qed.




(** ** The constraints on the catalog are kept *)

Lemma catalog_inv_products d d' :
  products d' = products d -> catalog_inv d -> catalog_inv d'.
Proof. unfold catalog_inv. intros ->. trivial. Qed.

Lemma init_db_inv : catalog_inv init_db.
Proof. split; constructor. Qed.

Lemma insert_product_inv p d d' :
  Sql.insert_product p d = Ok (tt, d') -> catalog_inv d -> catalog_inv d'.
Proof.
  unfold Sql.insert_product.
  destruct (negb (Sql.bindable (quantity p))); [discriminate|].
  destruct (Qle_bool 0 (price p) && (0 <=? quantity p)) eqn:Hck; [|discriminate].
  destruct (existsb (Sql.has_sku (sku p)) (products d)) eqn:Hpk; [discriminate|].
  cbn. intros H [Hrows Hnd]. injection H as <-.
  apply andb_true_iff in Hck. destruct Hck as [Hpr Hq].
  split; cbn.
  - apply Forall_app. split; [exact Hrows|].
    constructor; [|constructor]. split.
    + apply Qle_bool_iff. exact Hpr.
    + apply Z.leb_le. exact Hq.
  - rewrite map_app. apply NoDup_app.
    + exact Hnd.
    + cbn. constructor; [intros []|constructor].
    + intros k Hin [<-|[]].
      apply existsb_has_sku in Hin. congruence.
Qed.

Lemma pk_filter (f : product -> bool) l :
  NoDup (map sku l) -> NoDup (map sku (filter f l)).
Proof.
  induction l as [|p l IH]; cbn; intros Hnd; [constructor|].
  inversion Hnd as [|? ? Hp Hl]; subst.
  destruct (f p); cbn; [|apply IH, Hl].
  constructor; [|apply IH, Hl].
  intros Hin. apply Hp. apply in_map_iff in Hin.
  destruct Hin as [x [Hx Hin]]. apply filter_In in Hin.
  rewrite <- Hx. apply in_map. apply Hin.
Qed.

Lemma delete_product_inv k d n d' :
  Sql.delete_product k d = Ok (n, d') -> catalog_inv d -> catalog_inv d'.
Proof.
  unfold Sql.delete_product.
  destruct (filter (Sql.has_sku k) (products d)) as [|hit hits].
  - intros H. injection H as _ <-. trivial.
  - destruct (existsb _ _); [discriminate|].
    intros H [Hrows Hnd]. injection H as _ <-. split; cbn.
    + apply Forall_forall. intros p Hin. apply filter_In in Hin.
      rewrite Forall_forall in Hrows. apply Hrows, Hin.
    + apply pk_filter, Hnd.
Qed.

Lemma update_stock_inv q k d d' :
  Sql.update_stock q k d = Ok (tt, d') -> catalog_inv d -> catalog_inv d'.
Proof.
  unfold Sql.update_stock.
  destruct (negb (Sql.bindable q)); [discriminate|].
  destruct (forallb _ _) eqn:Hck; [|discriminate].
  intros H [Hrows Hnd]. injection H as <-. split; cbn.
  - apply Forall_forall. intros x Hx. apply in_map_iff in Hx.
    destruct Hx as [p [<- Hin]].
    rewrite Forall_forall in Hrows. destruct (Hrows p Hin) as [Hpr Hq].
    rewrite forallb_forall in Hck.
    specialize (Hck (Sql.sell k q p)).
    unfold Sql.sell in *. destruct (Sql.has_sku k p) eqn:Hk.
    + split; [exact Hpr|]. apply Z.leb_le, Hck. apply filter_In. split.
      * apply in_map_iff. exists p. rewrite Hk. split; [reflexivity|exact Hin].
      * exact Hk.
    + split; assumption.
  - rewrite map_sku_sell. exact Hnd.
Qed.

Lemma sale_item_inv tid it c :
  catalog_inv (working c) -> catalog_inv (working (snd (sale_item tid it c))).
Proof.
  intros Hinv. unfold sale_item, bind, query, execute, raise.
  destruct (Sql.select_product (b_sku it) (working c)) as [p|]; [|exact Hinv].
  destruct (quantity p <? b_qty it); [exact Hinv|].
  destruct (Sql.insert_item tid (b_sku it) (b_qty it) (b_price it) (working c))
    as [[[] d1]|e] eqn:Hins; [|exact Hinv].
  assert (Hinv1 : catalog_inv d1).
  { unfold Sql.insert_item in Hins.
    destruct (negb (Sql.bindable _)); [discriminate|].
    destruct (negb _); [discriminate|].
    injection Hins as <-. exact Hinv. }
  cbn [working committed].
  destruct (Sql.update_stock (b_qty it) (b_sku it) d1) as [[[] d2]|e] eqn:Hup.
  - cbn. apply (update_stock_inv _ _ _ _ Hup Hinv1).
  - exact Hinv1.
Qed.

Lemma sale_loop_inv tid bill c :
  catalog_inv (working c) -> catalog_inv (working (snd (sale_loop tid bill c))).
Proof.
  revert c. induction bill as [|it rest IH]; intros c Hinv; [exact Hinv|].
  cbn [sale_loop]. unfold bind.
  pose proof (sale_item_inv tid it c Hinv) as H1.
  destruct (sale_item tid it c) as [[[]|e] c1]; cbn in H1.
  - apply IH, H1.
  - exact H1.
Qed.

Lemma add_product_inv k n pr q d :
  catalog_inv d -> catalog_inv (snd (add_product k n pr q d)).
Proof.
  intros Hinv. unfold add_product.
  destruct (Py.not_str k || Py.not_str n); [exact Hinv|].
  destruct (Py.Qltb pr 0 || (q <? 0)); [exact Hinv|].
  run_connection.
  destruct (Sql.insert_product _ d) as [[[] d1]|e] eqn:Hins.
  - cbn. apply (insert_product_inv _ _ _ Hins Hinv).
  - destruct e; cbn; exact Hinv.
Qed.

Lemma remove_product_inv k d :
  catalog_inv d -> catalog_inv (snd (remove_product k d)).
Proof.
  intros Hinv. unfold remove_product.
  destruct (Py.not_str k); [exact Hinv|].
  run_connection.
  destruct (Sql.select_product k d) as [p|]; [|exact Hinv].
  run_connection.
  destruct (Sql.delete_product k d) as [[n d1]|e] eqn:Hdel.
  - pose proof (delete_product_inv _ _ _ _ Hdel Hinv) as Hinv1.
    cbn. destruct (n =? 0); cbn; exact Hinv1.
  - destruct e; cbn; exact Hinv.
Qed.

Lemma process_sale_inv now bill d :
  catalog_inv d -> catalog_inv (snd (process_sale now bill d)).
Proof.
  intros Hinv. destruct bill as [|it rest]; [exact Hinv|].
  rewrite process_sale_run by discriminate.
  set (tid := Sql.next_rowid _ _). set (d1 := mkDb _ _ _ _ _).
  pose proof (sale_loop_inv tid (it :: rest) (mkConn d d1)) as Hl.
  destruct (sale_loop tid (it :: rest) (mkConn d d1)) as [[[]|e] c1].
  - apply Hl. exact Hinv.
  - destruct e; exact Hinv.
Qed.

(** C3: whatever the operation ([add_product], [remove_product],
    [process_sale]) and its arguments, and whether it returns or raises,
    a catalog in which every row has [price >= 0] and [quantity >= 0] and
    no two rows share a sku is left in such a state. *)
Theorem catalog_inv_preserved o d :
  catalog_inv d -> catalog_inv (apply_op o d).
Proof.
  destruct o as [k n pr q|k|now bill]; cbn [apply_op].
  - apply add_product_inv.
  - apply remove_product_inv.
  - apply process_sale_inv.
Qed.

(** The constraints hold before and after a sale of three widgets. *)
Lemma catalog_inv_preserved_witness :
  catalog_inv
    (apply_op (Checkout "2024-01-01 10:00:00" [mkBill "SKU1" "Widget" (999 # 100) 3])
              widget_store).
Proof.
  apply (catalog_inv_preserved
           (Checkout "2024-01-01 10:00:00" [mkBill "SKU1" "Widget" (999 # 100) 3])
           widget_store).
  split.
  - constructor; [|constructor]. split; [discriminate|cbn; lia].
  - cbn. constructor; [intros []|constructor].
Defined.

(** Every store the operations can produce from a fresh database meets
    the constraints. *)
Corollary catalog_inv_reachable ops :
  catalog_inv (fold_left (fun d o => apply_op o d) ops init_db).
Proof.
  assert (H : forall d, catalog_inv d ->
                catalog_inv (fold_left (fun d o => apply_op o d) ops d)).
  { induction ops as [|o ops IH]; intros d Hd; [exact Hd|].
    cbn. apply IH. destruct o; cbn [apply_op];
      [apply add_product_inv|apply remove_product_inv|apply process_sale_inv];
      exact Hd. }
  apply H, init_db_inv.
Qed.

(** ** What a successful checkout leaves behind *)

Lemma process_sale_ok now bill d tid d' :
  process_sale now bill d = (Ok tid, d') ->
  tid = Sql.next_rowid (seq_transactions d) (map transaction_id (transactions d)) /\
  products d' = map (after_sale bill) (products d) /\
  transactions d' = transactions d ++ [mkTransaction tid now (bill_total bill)] /\
  exists created,
    transaction_items d' = transaction_items d ++ created /\
    map payload created = map (fun it => (tid, b_sku it, b_qty it, b_price it)) bill.
Proof.
  destruct bill as [|it rest]; [discriminate|].
  rewrite process_sale_run by discriminate.
  set (t := Sql.next_rowid _ _). set (d1 := mkDb _ _ _ _ _).
  destruct (sale_loop t (it :: rest) (mkConn d d1)) as [[[]|e] c1] eqn:Hrun.
  - intros H. injection H as <- <-.
    apply sale_loop_ok in Hrun. destruct Hrun as (Hp & Ht & _ & Hc).
    repeat split; assumption.
  - destruct e; discriminate.
Qed.

Lemma created_rows tid (P : bill_item -> Prop) (R : transaction_item -> Prop) :
  (forall it r, P it -> payload r = (tid, b_sku it, b_qty it, b_price it) -> R r) ->
  forall bill created,
    Forall P bill ->
    map payload created = map (fun it => (tid, b_sku it, b_qty it, b_price it)) bill ->
    Forall R created /\ List.length created = List.length bill.
Proof.
  intros HPR bill. induction bill as [|it rest IH]; intros created HP Hmap.
  - destruct created; [split; constructor|discriminate].
  - destruct created as [|r created]; [discriminate|].
    cbn [map] in Hmap. remember (payload r) as pr eqn:Hpr.
    remember (tid, b_sku it, b_qty it, b_price it) as want eqn:Hwant.
    injection Hmap as Hr Hrest. subst pr want.
    inversion HP as [|? ? Hit Hall]; subst.
    destruct (IH created Hall Hrest) as [HR Hlen].
    split; [constructor; [apply (HPR it); assumption|exact HR]|cbn; congruence].
Qed.

(** C7, as the code has it: [process_sale] does not look at the sign of
    the quantities and prices it is given. For a bill whose entries all
    have [quantity_sold > 0] and [price_at_sale >= 0], a checkout that
    returns has appended one line-item row per entry, each of the new
    transaction, with a positive [quantity_sold] and a non-negative
    [price_at_sale], and a transaction row whose [total_amount] is
    non-negative. *)
Theorem process_sale_rows_positive now bill d tid d' :
  Forall (fun it => 0 < b_qty it /\ (0 <= b_price it)%Q) bill ->
  process_sale now bill d = (Ok tid, d') ->
  exists created tx,
    transaction_items d' = transaction_items d ++ created /\
    List.length created = List.length bill /\
    Forall (fun r => ti_transaction_id r = tid /\ 0 < quantity_sold r /\
                     (0 <= price_at_sale r)%Q) created /\
    transactions d' = transactions d ++ [tx] /\
    transaction_id tx = tid /\
    (0 <= total_amount tx)%Q.
Proof.
  intros Hbill Hrun. apply process_sale_ok in Hrun.
  destruct Hrun as (_ & _ & Ht & created & Hi & Hc).
  exists created, (mkTransaction tid now (bill_total bill)).
  destruct (created_rows tid
              (fun it => 0 < b_qty it /\ (0 <= b_price it)%Q)
              (fun r => ti_transaction_id r = tid /\ 0 < quantity_sold r /\
                        (0 <= price_at_sale r)%Q)) with (bill := bill)
                                                         (created := created)
    as [HR Hlen]; try assumption.
  { intros it r [Hq Hp] Hr. unfold payload in Hr. injection Hr as -> _ -> ->.
    repeat split; assumption. }
  repeat split; try assumption.
  cbn. rewrite bill_total_line_sum. apply line_sum_nonneg, Hbill.
Qed.

(** A sale of three widgets at 9.99. *)
Lemma process_sale_rows_positive_witness :
  exists created tx,
    transaction_items
      (mkDb [mkProduct "SKU1" "Widget" (999 # 100) 2]
            [mkTransaction 1 "2024-01-01 10:00:00" (2997 # 100)]
            [mkItem 1 1 "SKU1" 3 (999 # 100)] 1 1)
    = transaction_items widget_store ++ created /\
    List.length created = List.length [mkBill "SKU1" "Widget" (999 # 100) 3] /\
    Forall (fun r => ti_transaction_id r = 1 /\ 0 < quantity_sold r /\
                     (0 <= price_at_sale r)%Q) created /\
    transactions
      (mkDb [mkProduct "SKU1" "Widget" (999 # 100) 2]
            [mkTransaction 1 "2024-01-01 10:00:00" (2997 # 100)]
            [mkItem 1 1 "SKU1" 3 (999 # 100)] 1 1)
    = transactions widget_store ++ [tx] /\
    transaction_id tx = 1 /\
    (0 <= total_amount tx)%Q.
Proof.
  apply (process_sale_rows_positive "2024-01-01 10:00:00"
           [mkBill "SKU1" "Widget" (999 # 100) 3] widget_store).
  - constructor; [|constructor]. split; [cbn; lia|discriminate].
  - reflexivity.
Defined.

(** [process_sale] takes a bill with a negative price and a negative
    quantity: the line items record them, the total is negative, and the
    stock goes up. *)
Lemma process_sale_accepts_negative :
  exists d' created tx,
    process_sale "2024-01-01 10:00:00" negative_bill widget_store = (Ok 1, d') /\
    transaction_items d' = transaction_items widget_store ++ created /\
    transactions d' = transactions widget_store ++ [tx] /\
    transaction_id tx = 1 /\
    (exists r, In r created /\ ti_transaction_id r = 1 /\ quantity_sold r <= 0) /\
    (exists r, In r created /\ ti_transaction_id r = 1 /\ (price_at_sale r < 0)%Q) /\
    (total_amount tx < 0)%Q.
Proof.
  eexists. exists [mkItem 1 1 "SKU1" 1 (-1); mkItem 2 1 "SKU1" (-3) 2].
  exists (mkTransaction 1 "2024-01-01 10:00:00" (bill_total negative_bill)).
  split; [reflexivity|]. split; [reflexivity|]. split; [reflexivity|].
  split; [reflexivity|]. repeat split.
  - exists (mkItem 2 1 "SKU1" (-3) 2).
    split; [right; left; reflexivity|]. split; [reflexivity|cbn; lia].
  - exists (mkItem 1 1 "SKU1" 1 (-1)).
    split; [left; reflexivity|]. split; reflexivity.
Qed.

(** ** Checkout of a sku the catalog does not have *)




(** ** Removing products *)

Lemma not_str_false k : k <> EmptyString -> Py.not_str k = false.
Proof. destruct k; [congruence|reflexivity]. Qed.

(** C4, as the code has it: [remove_product] turns the empty sku away
    before it looks at the tables. For every non-empty sku that names a
    product row and is the [product_sku] of a line item,
    [remove_product] raises the [ValueError] that tells the product is
    part of past transactions, and the database, the product row with
    it, is the one before the call. *)
Theorem remove_product_referenced k d p it :
  k <> EmptyString ->
  In p (products d) -> sku p = k ->
  In it (transaction_items d) -> product_sku it = k ->
  remove_product k d =
    (Raise (ValueError (CannotRemove k (IntegrityError ForeignKeyFailed))), d)
  /\ classify (ValueError (CannotRemove k (IntegrityError ForeignKeyFailed)))
     = ReferentialIntegrityError.
Proof.
  intros Hk Hp Hsku Hit Href. split; [|reflexivity].
  unfold remove_product. rewrite (not_str_false k Hk).
  run_connection.
  destruct (Sql.select_product k d) as [p'|] eqn:Hsel.
  2:{ apply find_has_sku_none in Hsel. exfalso. apply Hsel.
      rewrite <- Hsku. apply in_map. exact Hp. }
  run_connection.
  unfold Sql.delete_product.
  destruct (filter (Sql.has_sku k) (products d)) as [|hit hits] eqn:Hf.
  { exfalso. assert (Hin : In p (filter (Sql.has_sku k) (products d))).
    { apply filter_In. split; [exact Hp|apply has_sku_true, Hsku]. }
    rewrite Hf in Hin. exact Hin. }
  assert (Hfk : existsb (fun r => String.eqb (product_sku r) k)
                  (transaction_items d) = true).
  { apply existsb_exists. exists it. split; [exact Hit|].
    apply String.eqb_eq, Href. }
  rewrite Hfk. reflexivity.
Qed.

(** The widget cannot be removed once three of it were sold. *)
Lemma remove_product_referenced_witness :
  remove_product "SKU1"
    (mkDb [mkProduct "SKU1" "Widget" (999 # 100) 2]
          [mkTransaction 1 "2024-01-01 10:00:00" (2997 # 100)]
          [mkItem 1 1 "SKU1" 3 (999 # 100)] 1 1) =
    (Raise (ValueError (CannotRemove "SKU1" (IntegrityError ForeignKeyFailed))),
     mkDb [mkProduct "SKU1" "Widget" (999 # 100) 2]
          [mkTransaction 1 "2024-01-01 10:00:00" (2997 # 100)]
          [mkItem 1 1 "SKU1" 3 (999 # 100)] 1 1)
  /\ classify (ValueError (CannotRemove "SKU1" (IntegrityError ForeignKeyFailed)))
     = ReferentialIntegrityError.
Proof.
  apply (remove_product_referenced "SKU1" _
           (mkProduct "SKU1" "Widget" (999 # 100) 2)
           (mkItem 1 1 "SKU1" 3 (999 # 100))).
  - discriminate.
  - left. reflexivity.
  - reflexivity.
  - left. reflexivity.
  - reflexivity.
Defined.

(** A product stored under the empty sku and sold once: [remove_product]
    turns the empty sku away as invalid input, whatever refers to it. *)
Lemma remove_product_blank_sku :
  (exists p it,
      In p (products blank_sku_sold) /\ sku p = EmptyString /\
      In it (transaction_items blank_sku_sold) /\ product_sku it = EmptyString) /\
  remove_product EmptyString blank_sku_sold =
    (Raise (ValueError SkuEmpty), blank_sku_sold) /\
  classify (ValueError SkuEmpty) <> ReferentialIntegrityError.
Proof.
  split; [|split; [reflexivity|discriminate]].
  exists (mkProduct EmptyString "Widget" 1 4), (mkItem 1 1 EmptyString 1 1).
  repeat split; left; reflexivity.
Qed.

(** A sku that no product has, in general: the not-found [ValueError]
    raised inside the [try] is caught by the catch-all handler. *)
Lemma remove_product_missing k d :
  k <> EmptyString ->
  ~ In k (map sku (products d)) ->
  remove_product k d =
    (Raise (RuntimeError (DbErrorRemoving (ValueError (ProductNotFound k)))), d).
Proof.
  intros Hk Hmiss. unfold remove_product. rewrite (not_str_false k Hk).
  run_connection.
  apply find_has_sku_none in Hmiss. unfold Sql.select_product. rewrite Hmiss.
  reflexivity.
Qed.

(** C5: [remove_product] of a sku no product has. The code raises
    [ValueError] (not found) inside its [try] block, where the handler
    for [Exception] catches it and raises [RuntimeError] in its place:
    the caller gets the generic storage failure. The database is
    unchanged. *)
Theorem remove_product_missing_is_runtime_error :
  remove_product "SKU9" widget_store =
    (Raise (RuntimeError (DbErrorRemoving (ValueError (ProductNotFound "SKU9")))),
     widget_store)
  /\ classify (RuntimeError (DbErrorRemoving (ValueError (ProductNotFound "SKU9"))))
     = StorageError.
Proof. split; reflexivity. Qed.

(** ** Receipts *)

Lemma get_transaction_details_missing tid d :
  Sql.bindable tid = true ->
  Sql.select_transaction tid d = None ->
  get_transaction_details tid d =
    (Raise (RuntimeError (DbErrorFetchingDetails (ValueError (TransactionNotFound tid)))),
     d).
Proof.
  intros Hb Hsel. unfold get_transaction_details. run_connection.
  rewrite Hb, Hsel. reflexivity.
Qed.

(** An id beyond 64 bits cannot be bound: the generic failure again. *)
Lemma get_transaction_details_unbindable tid d :
  Sql.bindable tid = false ->
  get_transaction_details tid d =
    (Raise (RuntimeError (DbErrorFetchingDetails OverflowError)), d).
Proof.
  intros Hb. unfold get_transaction_details. run_connection.
  rewrite Hb. reflexivity.
Qed.

(** An id that exists: the transaction row and the joined line items. *)
Lemma get_transaction_details_found tid d t :
  Sql.bindable tid = true ->
  Sql.select_transaction tid d = Some t ->
  get_transaction_details tid d = (Ok (t, Sql.select_items tid d), d) /\
  transaction_id t = tid /\ In t (transactions d).
Proof.
  intros Hb Hsel. split.
  - unfold get_transaction_details. run_connection.
    rewrite Hb, Hsel. reflexivity.
  - apply find_some in Hsel. destruct Hsel as [Hin Hid].
    split; [apply Z.eqb_eq, Hid|exact Hin].
Qed.

(** The rows of the join: one per line item of the transaction and
    product row of its sku, with the name the product has now and the
    quantity and price the line item recorded. *)
Lemma select_items_rows tid d q n k pr :
  In (q, n, k, pr) (Sql.select_items tid d) <->
  exists it p,
    In it (transaction_items d) /\ ti_transaction_id it = tid /\
    In p (products d) /\ sku p = product_sku it /\
    q = quantity_sold it /\ n = name p /\ k = product_sku it /\
    pr = price_at_sale it.
Proof.
  unfold Sql.select_items. rewrite in_flat_map. split.
  - intros (it & Hit & Hrow).
    destruct (ti_transaction_id it =? tid) eqn:Hid; [|contradiction].
    apply in_map_iff in Hrow. destruct Hrow as (p & Heq & Hp).
    apply filter_In in Hp. destruct Hp as [Hp Hs]. apply has_sku_true in Hs.
    injection Heq as <- <- <- <-.
    exists it, p. apply Z.eqb_eq in Hid. repeat split; assumption.
  - intros (it & p & Hit & Hid & Hp & Hs & -> & -> & -> & ->).
    exists it. split; [exact Hit|].
    apply Z.eqb_eq in Hid. rewrite Hid.
    apply in_map_iff. exists p. split; [reflexivity|].
    apply filter_In. split; [exact Hp|apply has_sku_true, Hs].
Qed.

(** C6: [get_transaction_details] of an id no transaction has. The code
    raises [ValueError] (not found) inside its [try] block, whose only
    handler catches every [Exception] and raises [RuntimeError] in its
    place: the caller gets the generic storage failure. *)
Theorem get_transaction_details_missing_is_runtime_error :
  get_transaction_details 7 widget_store =
    (Raise (RuntimeError (DbErrorFetchingDetails (ValueError (TransactionNotFound 7)))),
     widget_store)
  /\ classify (RuntimeError (DbErrorFetchingDetails (ValueError (TransactionNotFound 7))))
     = StorageError.
Proof. split; reflexivity. Qed.

(** ** Adding products *)

(** What [add_product] does turn away: an empty sku or name as given,
    and a negative price or quantity. *)
Lemma add_product_empty k n pr q d :
  k = EmptyString \/ n = EmptyString ->
  add_product k n pr q d = (Raise (ValueError MissingInfo), d).
Proof.
  intros [->| ->]; unfold add_product; cbn; [reflexivity|].
  rewrite orb_true_r. reflexivity.
Qed.

Lemma add_product_negative k n pr q d :
  k <> EmptyString -> n <> EmptyString ->
  (pr < 0)%Q \/ q < 0 ->
  add_product k n pr q d = (Raise (ValueError NegativePriceQuantity), d).
Proof.
  intros Hk Hn Hneg. unfold add_product.
  rewrite (not_str_false k Hk), (not_str_false n Hn). cbn [orb].
  assert (Hb : Py.Qltb pr 0 || (q <? 0) = true).
  { apply orb_true_iff. destruct Hneg as [Hpr|Hq].
    - left. unfold Py.Qltb. apply negb_true_iff.
      destruct (Qle_bool 0 pr) eqn:Hle; [|reflexivity].
      apply Qle_bool_iff in Hle. exfalso. apply (Qlt_not_le _ _ Hpr Hle).
    - right. apply Z.ltb_lt, Hq. }
  rewrite Hb. reflexivity.
Qed.

(** A negative price or quantity is turned away as invalid input
    whatever the sku and the name. *)
Lemma add_product_negative_validation k n pr q d :
  (pr < 0)%Q \/ q < 0 ->
  exists m, add_product k n pr q d = (Raise (ValueError m), d) /\
            classify (ValueError m) = ValidationError.
Proof.
  intros Hneg.
  destruct k as [|a k].
  { exists MissingInfo. split; [|reflexivity]. apply add_product_empty. now left. }
  destruct n as [|b n].
  { exists MissingInfo. split; [|reflexivity]. apply add_product_empty. now right. }
  exists NegativePriceQuantity. split; [|reflexivity].
  apply add_product_negative; [discriminate|discriminate|exact Hneg].
Qed.

(** C8: a sku of blanks only. [add_product] tests [not sku] on the
    string as given and strips it afterwards, so the call returns and
    stores a product whose sku is the empty string; a name of blanks
    only is stored as the empty name in the same way. *)
Theorem add_product_blank_accepted :
  add_product "   " "Widget" 1 5 init_db =
    (Ok (ProductAdded "Widget" "   "),
     mkDb [mkProduct EmptyString "Widget" 1 5] [] [] 0 0)
  /\ Py.upper (Py.strip "   ") = EmptyString
  /\ add_product "sku2" "  " 1 5 init_db =
       (Ok (ProductAdded "  " "sku2"),
        mkDb [mkProduct "SKU2" EmptyString 1 5] [] [] 0 0)
  /\ Py.strip "  " = EmptyString.
Proof. repeat split. Qed.

(** ** Reading back what was added *)

Lemma find_last (f : product -> bool) l p :
  existsb f l = false -> f p = true -> find f (l ++ [p]) = Some p.
Proof.
  induction l as [|x l IH]; cbn; intros He Hp.
  - rewrite Hp. reflexivity.
  - apply orb_false_iff in He. destruct He as [Hx He].
    rewrite Hx. apply IH; assumption.
Qed.

(** C9, as the code has it: [get_product_details] compares the sku it
    is given with the stored one as it is. After [add_product] has
    returned, [get_product_details] on the stripped, upper-cased sku
    returns the stored row: that sku, the stripped name, and the price
    and quantity given. *)
Theorem add_then_get_product k n pr q d msg d' :
  add_product k n pr q d = (Ok msg, d') ->
  get_product_details (Py.upper (Py.strip k)) d' =
    (Ok (Some (mkProduct (Py.upper (Py.strip k)) (Py.strip n) pr q)), d').
Proof.
  unfold add_product.
  destruct (Py.not_str k || Py.not_str n); [discriminate|].
  destruct (Py.Qltb pr 0 || (q <? 0)); [discriminate|].
  run_connection. unfold Sql.insert_product. cbn [sku price quantity].
  destruct (negb (Sql.bindable q)); [discriminate|].
  destruct (negb _); [discriminate|].
  destruct (existsb _ (products d)) eqn:Hpk; [discriminate|].
  cbn. intros H. injection H as _ <-.
  unfold get_product_details, with_connection, try_except, query,
    get_db_connection, Sql.select_product.
  cbn. rewrite (find_last _ _ _ Hpk); [reflexivity|].
  apply has_sku_true. reflexivity.
Qed.

(** The widget added as [sku1] is read back under [SKU1]. *)
Lemma add_then_get_product_witness :
  get_product_details (Py.upper (Py.strip "sku1")) widget_store =
    (Ok (Some (mkProduct (Py.upper (Py.strip "sku1")) (Py.strip " Widget ")
                 (999 # 100) 5)),
     widget_store).
Proof.
  apply (add_then_get_product "sku1" " Widget " (999 # 100) 5 init_db
           (ProductAdded " Widget " "sku1") widget_store).
  reflexivity.
Defined.

(** Under the sku as it was typed, [sku1], nothing is found. *)
Lemma get_product_details_raw_sku :
  add_product "sku1" " Widget " (999 # 100) 5 init_db =
    (Ok (ProductAdded " Widget " "sku1"), widget_store) /\
  get_product_details "sku1" widget_store = (Ok None, widget_store).
Proof. split; reflexivity. Qed.

(** * Further properties of the data layer *)

(** ** Outcomes of [add_product] *)








(** What [add_product] has done when it returns. *)
Lemma add_product_ok k n pr q d msg d' :
  add_product k n pr q d = (Ok msg, d') ->
  ~ In (normalize_sku k) (map sku (products d)) /\
  d' = mkDb (products d ++ [mkProduct (normalize_sku k) (Py.strip n) pr q])
            (transactions d) (transaction_items d)
            (seq_transactions d) (seq_items d).
Proof.
  unfold add_product.
  destruct (Py.not_str k || Py.not_str n); [discriminate|].
  destruct (Py.Qltb pr 0 || (q <? 0)); [discriminate|].
  run_connection. unfold Sql.insert_product. cbn [sku price quantity].
  destruct (negb (Sql.bindable q)); [discriminate|].
  destruct (negb _); [discriminate|].
  destruct (existsb _ (products d)) eqn:He; [discriminate|].
  cbn. intros H. injection H as _ <-. split; [|reflexivity].
  intros Hin. apply existsb_has_sku in Hin. unfold normalize_sku in Hin.
  congruence.
Qed.

(** ** Outcomes of [remove_product] *)

Lemma filter_none (f : product -> bool) l :
  existsb f l = false -> filter f l = [].
Proof.
  induction l as [|x l IH]; cbn; [reflexivity|].
  intros H. apply orb_false_iff in H. destruct H as [Hx Hl].
  rewrite Hx. apply IH, Hl.
Qed.

Lemma filter_all (f : product -> bool) l :
  existsb f l = false -> filter (fun p => negb (f p)) l = l.
Proof.
  induction l as [|x l IH]; cbn; [reflexivity|].
  intros H. apply orb_false_iff in H. destruct H as [Hx Hl].
  rewrite Hx. cbn. f_equal. apply IH, Hl.
Qed.

Lemma not_referenced k items :
  (forall r, In r items -> product_sku r <> k) ->
  existsb (fun r => String.eqb (product_sku r) k) items = false.
Proof.
  intros H. destruct (existsb _ items) eqn:He; [|reflexivity].
  apply existsb_exists in He. destruct He as [r [Hin Hr]].
  apply String.eqb_eq in Hr. exfalso. apply (H r Hin Hr).
Qed.

(** X3: A non-empty sku that names a product no line item refers to: the
    call returns the product's name, the row is gone, so that
    [get_product_details] finds nothing under the sku, and every other
    row and the ledger are as before. *)
Theorem remove_product_unreferenced k d p :
  k <> EmptyString ->
  NoDup (map sku (products d)) ->
  In p (products d) -> sku p = k ->
  (forall r, In r (transaction_items d) -> product_sku r <> k) ->
  exists d',
    remove_product k d = (Ok (ProductRemoved (name p) k), d') /\
    ~ In k (map sku (products d')) /\
    get_product_details k d' = (Ok None, d') /\
    (forall p', In p' (products d) -> sku p' <> k -> In p' (products d')) /\
    (forall p', In p' (products d') -> In p' (products d)) /\
    transactions d' = transactions d /\
    transaction_items d' = transaction_items d.
Proof.
  intros Hk Hnd Hin <- Href.
  exists (mkDb (filter (fun x => negb (Sql.has_sku (sku p) x)) (products d))
               (transactions d) (transaction_items d)
               (seq_transactions d) (seq_items d)).
  assert (Hgone : ~ In (sku p)
                      (map sku (filter (fun x => negb (Sql.has_sku (sku p) x))
                                  (products d)))).
  { intros H. apply in_map_iff in H. destruct H as [x [Hx Hf]].
    apply filter_In in Hf. destruct Hf as [_ Hf].
    apply negb_true_iff in Hf. apply has_sku_true in Hx. congruence. }
  repeat split.
  - unfold remove_product. rewrite (not_str_false _ Hk). run_connection.
    unfold Sql.select_product.
    rewrite (pk_find _ _ Hnd Hin). run_connection.
    unfold Sql.delete_product.
    destruct (filter (Sql.has_sku (sku p)) (products d)) as [|hit hits] eqn:Hf.
    { exfalso. assert (H : In p (filter (Sql.has_sku (sku p)) (products d))).
      { apply filter_In. split; [exact Hin|apply has_sku_true; reflexivity]. }
      rewrite Hf in H. exact H. }
    rewrite (not_referenced _ _ Href). cbn [working committed].
    replace (Z.of_nat (List.length (hit :: hits)) =? 0) with false
      by (symmetry; apply Z.eqb_neq; cbn [List.length]; lia).
    reflexivity.
  - exact Hgone.
  - unfold get_product_details. run_connection. unfold Sql.select_product.
    cbn [products]. apply find_has_sku_none in Hgone. rewrite Hgone.
    reflexivity.
  - intros p' Hp' Hne. cbn. apply filter_In. split; [exact Hp'|].
    apply negb_true_iff. destruct (Sql.has_sku (sku p) p') eqn:Hs; [|reflexivity].
    apply has_sku_true in Hs. contradiction.
  - cbn. intros p' Hp'. apply filter_In in Hp'. apply Hp'.
Qed.

Lemma remove_product_unreferenced_witness :
  exists d',
    remove_product "SKU1" widget_store = (Ok (ProductRemoved "Widget" "SKU1"), d') /\
    ~ In "SKU1" (map sku (products d')) /\
    get_product_details "SKU1" d' = (Ok None, d') /\
    (forall p', In p' (products widget_store) -> sku p' <> "SKU1" ->
                In p' (products d')) /\
    (forall p', In p' (products d') -> In p' (products widget_store)) /\
    transactions d' = transactions widget_store /\
    transaction_items d' = transaction_items widget_store.
Proof.
  apply (remove_product_unreferenced "SKU1" widget_store
           (mkProduct "SKU1" "Widget" (999 # 100) 5)).
  - discriminate.
  - cbn. constructor; [intros []|constructor].
  - left. reflexivity.
  - reflexivity.
  - intros r [].
Defined.

(** X4: Adding a product and removing it again under its normalized sku
    gives back the database as it was: the round trip leaves no trace. *)
Theorem add_then_remove_product k n pr q d msg d' :
  add_product k n pr q d = (Ok msg, d') ->
  normalize_sku k <> EmptyString ->
  (forall r, In r (transaction_items d) -> product_sku r <> normalize_sku k) ->
  remove_product (normalize_sku k) d' =
    (Ok (ProductRemoved (Py.strip n) (normalize_sku k)), d).
Proof.
  intros Hadd Hk Href. apply add_product_ok in Hadd.
  destruct Hadd as [Hnew ->].
  assert (He : existsb (Sql.has_sku (normalize_sku k)) (products d) = false).
  { destruct (existsb _ (products d)) eqn:He; [|reflexivity].
    exfalso. apply Hnew. apply existsb_has_sku. exact He. }
  set (p := mkProduct (normalize_sku k) (Py.strip n) pr q).
  assert (Hp : Sql.has_sku (normalize_sku k) p = true)
    by (apply has_sku_true; reflexivity).
  unfold remove_product. rewrite (not_str_false _ Hk). run_connection.
  unfold Sql.select_product. cbn [products].
  rewrite (find_last _ _ _ He Hp). run_connection.
  unfold Sql.delete_product. cbn [products transaction_items].
  rewrite filter_app, (filter_none _ _ He). cbn [filter app]. rewrite Hp.
  rewrite (not_referenced _ _ Href). cbn [working committed].
  rewrite filter_app, (filter_all _ _ He). cbn [filter]. rewrite Hp.
  cbn. rewrite app_nil_r. destruct d; reflexivity.
Qed.

Lemma add_then_remove_product_witness :
  remove_product (normalize_sku "sku1") widget_store =
    (Ok (ProductRemoved (Py.strip " Widget ") (normalize_sku "sku1")), init_db).
Proof.
  apply (add_then_remove_product "sku1" " Widget " (999 # 100) 5 init_db
           (ProductAdded " Widget " "sku1") widget_store).
  - reflexivity.
  - discriminate.
  - intros r [].
Defined.

(** ** Failure undoes everything *)

Lemma add_product_raise_unchanged k n pr q d e d' :
  add_product k n pr q d = (Raise e, d') -> d' = d.
Proof.
  unfold add_product.
  destruct (Py.not_str k || Py.not_str n);
    [intros H; injection H as _ <-; reflexivity|].
  destruct (Py.Qltb pr 0 || (q <? 0));
    [intros H; injection H as _ <-; reflexivity|].
  run_connection.
  destruct (Sql.insert_product _ d) as [[[] d1]|e1]; [discriminate|].
  destruct e1; cbn; intros H; injection H as _ <-; reflexivity.
Qed.

Lemma delete_product_zero k d n d1 :
  Sql.delete_product k d = Ok (n, d1) -> n = 0 -> d1 = d.
Proof.
  unfold Sql.delete_product.
  destruct (filter (Sql.has_sku k) (products d)) as [|hit hits].
  - intros H _. injection H as _ <-. reflexivity.
  - destruct (existsb _ _); [discriminate|].
    intros H Hn. injection H as <- _. cbn [List.length] in Hn. lia.
Qed.

Lemma remove_product_raise_unchanged k d e d' :
  remove_product k d = (Raise e, d') -> d' = d.
Proof.
  unfold remove_product.
  destruct (Py.not_str k); [intros H; injection H as _ <-; reflexivity|].
  run_connection.
  destruct (Sql.select_product k d) as [p|];
    [|cbn; intros H; injection H as _ <-; reflexivity].
  run_connection.
  destruct (Sql.delete_product k d) as [[n d1]|e1] eqn:Hdel.
  - cbn [working committed]. destruct (n =? 0) eqn:Hn; [|discriminate].
    apply Z.eqb_eq in Hn. rewrite (delete_product_zero _ _ _ _ Hdel Hn).
    cbn. intros H. injection H as _ <-. reflexivity.
  - destruct e1; cbn; intros H; injection H as _ <-; reflexivity.
Qed.

(** X5: Whichever operation raises, for whatever reason, the database is
    the one before the call. *)
Theorem failure_leaves_store o d :
  raises o d = true -> apply_op o d = d.
Proof.
  destruct o as [k n pr q|k|now bill]; cbn [raises apply_op].
  - destruct (add_product k n pr q d) as [[msg|e] d'] eqn:H; [discriminate|].
    intros _. apply (add_product_raise_unchanged _ _ _ _ _ _ _ H).
  - destruct (remove_product k d) as [[msg|e] d'] eqn:H; [discriminate|].
    intros _. apply (remove_product_raise_unchanged _ _ _ _ H).
  - destruct (process_sale now bill d) as [[tid|e] d'] eqn:H; [discriminate|].
    intros _. apply (process_sale_raise_unchanged _ _ _ _ _ H).
Qed.

Lemma failure_leaves_store_witness :
  apply_op (AddProduct "sku1" "Gadget" 2 1) widget_store = widget_store.
Proof.
  apply (failure_leaves_store (AddProduct "sku1" "Gadget" 2 1) widget_store).
  reflexivity.
Defined.

(** ** What the operations leave alone *)

Lemma add_product_ledger k n pr q d :
  let d' := snd (add_product k n pr q d) in
  transactions d' = transactions d /\
  transaction_items d' = transaction_items d /\
  seq_transactions d' = seq_transactions d.
Proof.
  destruct (add_product k n pr q d) as [[msg|e] d'] eqn:H; cbn.
  - apply add_product_ok in H. destruct H as [_ ->]. repeat split.
  - apply add_product_raise_unchanged in H. subst d'. repeat split.
Qed.

Lemma remove_product_ok k d msg d' :
  remove_product k d = (Ok msg, d') ->
  (forall r, In r (transaction_items d) -> product_sku r <> k) /\
  d' = mkDb (filter (fun p => negb (Sql.has_sku k p)) (products d))
            (transactions d) (transaction_items d)
            (seq_transactions d) (seq_items d).
Proof.
  unfold remove_product.
  destruct (Py.not_str k); [discriminate|]. run_connection.
  destruct (Sql.select_product k d) as [p|] eqn:Hsel; [|discriminate].
  run_connection. unfold Sql.delete_product.
  destruct (filter (Sql.has_sku k) (products d)) as [|hit hits] eqn:Hf.
  - exfalso. unfold Sql.select_product in Hsel. apply find_some in Hsel.
    assert (H : In p (filter (Sql.has_sku k) (products d)))
      by (apply filter_In; exact Hsel).
    rewrite Hf in H. exact H.
  - destruct (existsb _ (transaction_items d)) eqn:He; [discriminate|].
    cbn [working committed]. destruct (_ =? 0); [discriminate|].
    cbn. intros H. injection H as _ <-. split; [|reflexivity].
    intros r Hr Heq. assert (Ht : existsb (fun r0 => String.eqb (product_sku r0) k)
                                    (transaction_items d) = true).
    { apply existsb_exists. exists r. split; [exact Hr|apply String.eqb_eq, Heq]. }
    congruence.
Qed.

Lemma remove_product_ledger k d :
  let d' := snd (remove_product k d) in
  transactions d' = transactions d /\
  transaction_items d' = transaction_items d /\
  seq_transactions d' = seq_transactions d.
Proof.
  destruct (remove_product k d) as [[msg|e] d'] eqn:H; cbn.
  - apply remove_product_ok in H. destruct H as [_ ->]. repeat split.
  - apply remove_product_raise_unchanged in H. subst d'. repeat split.
Qed.

(** X6: A checkout, whether it goes through or not, changes no sku, name
    or price of the catalog, drops no product, and only adds rows at the
    end of the two ledger tables. *)
Theorem process_sale_append_only now bill d :
  map (fun p => (sku p, name p, price p)) (products (snd (process_sale now bill d)))
    = map (fun p => (sku p, name p, price p)) (products d) /\
  exists txs rows,
    transactions (snd (process_sale now bill d)) = transactions d ++ txs /\
    transaction_items (snd (process_sale now bill d)) = transaction_items d ++ rows.
Proof.
  destruct (process_sale now bill d) as [[tid|e] d'] eqn:H; cbn [snd].
  - apply process_sale_ok in H. destruct H as (_ & Hp & Ht & created & Hi & _).
    split.
    + rewrite Hp, map_map. reflexivity.
    + eexists. exists created. split; [exact Ht|exact Hi].
  - apply process_sale_raise_unchanged in H. subst d'. split; [reflexivity|].
    exists [], []. rewrite !app_nil_r. split; reflexivity.
Qed.

(** ** Transaction ids *)

Lemma next_rowid_gt seq ids : seq < Sql.next_rowid seq ids.
Proof. unfold Sql.next_rowid. pose proof (fold_max_ge seq ids). lia. Qed.

Lemma process_sale_seq now bill d tid d' :
  process_sale now bill d = (Ok tid, d') ->
  seq_transactions d' = tid /\ seq_transactions d < tid.
Proof.
  destruct bill as [|it rest]; [discriminate|].
  rewrite process_sale_run by discriminate.
  destruct (sale_loop _ (it :: rest) _) as [[[]|e] c1] eqn:Hrun.
  - intros H. injection H as <- <-.
    apply sale_loop_ok in Hrun. destruct Hrun as (_ & _ & Hs & _).
    split; [exact Hs|apply next_rowid_gt].
  - destruct e; discriminate.
Qed.

Lemma seq_transactions_mono o d :
  seq_transactions d <= seq_transactions (apply_op o d).
Proof.
  destruct o as [k n pr q|k|now bill]; cbn [apply_op].
  - destruct (add_product_ledger k n pr q d) as (_ & _ & ->). lia.
  - destruct (remove_product_ledger k d) as (_ & _ & ->). lia.
  - destruct (process_sale now bill d) as [[tid|e] d'] eqn:H; cbn [snd].
    + apply process_sale_seq in H. lia.
    + apply process_sale_raise_unchanged in H. subst d'. lia.
Qed.

Lemma seq_transactions_mono_run ops d :
  seq_transactions d <= seq_transactions (fold_left (fun d o => apply_op o d) ops d).
Proof.
  revert d. induction ops as [|o ops IH]; intros d; cbn; [lia|].
  pose proof (seq_transactions_mono o d). specialize (IH (apply_op o d)). lia.
Qed.

(** X7: The id a checkout returns is larger than the id of every checkout
    that returned before it, whatever was done to the store in between:
    ids are never handed out twice. *)
Theorem process_sale_ids_increase now1 bill1 d tid1 d1 ops now2 bill2 tid2 d2 :
  process_sale now1 bill1 d = (Ok tid1, d1) ->
  process_sale now2 bill2 (fold_left (fun d o => apply_op o d) ops d1)
    = (Ok tid2, d2) ->
  tid1 < tid2.
Proof.
  intros H1 H2. apply process_sale_seq in H1, H2.
  pose proof (seq_transactions_mono_run ops d1). lia.
Qed.

Lemma process_sale_ids_increase_witness : 1 < 2.
Proof.
  apply (process_sale_ids_increase
           "2024-01-01 10:00:00" [mkBill "SKU1" "Widget" (999 # 100) 3]
           widget_store 1
           (mkDb [mkProduct "SKU1" "Widget" (999 # 100) 2]
                 [mkTransaction 1 "2024-01-01 10:00:00" (2997 # 100)]
                 [mkItem 1 1 "SKU1" 3 (999 # 100)] 1 1)
           [AddProduct "sku2" "Gadget" 2 4;
            Checkout "2024-01-01 10:05:00" [mkBill "SKU1" "Widget" (999 # 100) 9]]
           "2024-01-01 10:10:00" [mkBill "SKU2" "Gadget" 2 1] 2
           (mkDb [mkProduct "SKU1" "Widget" (999 # 100) 2;
                  mkProduct "SKU2" "Gadget" 2 3]
                 [mkTransaction 1 "2024-01-01 10:00:00" (2997 # 100);
                  mkTransaction 2 "2024-01-01 10:10:00" 2]
                 [mkItem 1 1 "SKU1" 3 (999 # 100); mkItem 2 2 "SKU2" 1 2] 2 2)).
  - reflexivity.
  - reflexivity.
Defined.

(** ** The ledger stays sound *)

Lemma sale_item_ok_sku tid it c c' :
  sale_item tid it c = (Ok tt, c') ->
  In (b_sku it) (map sku (products (working c))).
Proof.
  unfold sale_item, bind, query.
  destruct (Sql.select_product (b_sku it) (working c)) as [p|] eqn:Hsel;
    [|discriminate].
  intros _. unfold Sql.select_product in Hsel. apply find_some in Hsel.
  destruct Hsel as [Hin Hk]. apply has_sku_true in Hk. rewrite <- Hk.
  apply in_map. exact Hin.
Qed.

Lemma sale_loop_ok_skus tid bill c c' :
  sale_loop tid bill c = (Ok tt, c') ->
  forall it, In it bill -> In (b_sku it) (map sku (products (working c))).
Proof.
  revert c. induction bill as [|it rest IH]; intros c Hrun x Hx; [destruct Hx|].
  cbn [sale_loop] in Hrun. unfold bind at 1 in Hrun.
  destruct (sale_item tid it c) as [[[]|e] c1] eqn:Hit; [|discriminate].
  destruct Hx as [<-|Hx].
  - apply (sale_item_ok_sku _ _ _ _ Hit).
  - apply sale_item_ok in Hit. destruct Hit as (_ & Hp & _).
    rewrite <- (map_sku_sell (b_sku it) (b_qty it)), <- Hp.
    apply (IH c1 Hrun x Hx).
Qed.

Lemma process_sale_ok_skus now bill d tid d' :
  process_sale now bill d = (Ok tid, d') ->
  forall it, In it bill -> In (b_sku it) (map sku (products d)).
Proof.
  destruct bill as [|it0 rest]; [discriminate|].
  rewrite process_sale_run by discriminate.
  destruct (sale_loop _ (it0 :: rest) _) as [[[]|e] c1] eqn:Hrun.
  - intros _. apply (sale_loop_ok_skus _ _ _ _ Hrun).
  - destruct e; discriminate.
Qed.

(** The total of the recorded bill, line item by line item. *)
Lemma recorded_total_from tid items acc :
  fold_left (fun a it => (a + b_price it * inject_Z (b_qty it))%Q)
            (recorded_bill tid items) acc
  = fold_left
      (fun a r =>
         if ti_transaction_id r =? tid
         then (a + price_at_sale r * inject_Z (quantity_sold r))%Q
         else a)
      items acc.
Proof.
  unfold recorded_bill. revert acc.
  induction items as [|r items IH]; intros acc; [reflexivity|].
  cbn [filter fold_left]. destruct (ti_transaction_id r =? tid).
  - cbn [map fold_left b_price b_qty]. apply IH.
  - apply IH.
Qed.

Lemma ledger_total_fold tid items :
  ledger_total tid items
  = fold_left
      (fun a r =>
         if ti_transaction_id r =? tid
         then (a + price_at_sale r * inject_Z (quantity_sold r))%Q
         else a)
      items 0%Q.
Proof. unfold ledger_total, bill_total. apply recorded_total_from. Qed.

Lemma ledger_step_skip tid l acc :
  (forall r, In r l -> ti_transaction_id r <> tid) ->
  fold_left
    (fun a r =>
       if ti_transaction_id r =? tid
       then (a + price_at_sale r * inject_Z (quantity_sold r))%Q
       else a)
    l acc = acc.
Proof.
  revert acc. induction l as [|r l IH]; intros acc H; [reflexivity|].
  cbn [fold_left].
  destruct (ti_transaction_id r =? tid) eqn:He.
  - apply Z.eqb_eq in He. exfalso. apply (H r); [left; reflexivity|exact He].
  - apply IH. intros x Hx. apply H. right. exact Hx.
Qed.

Lemma created_belong tid bill created :
  map payload created = map (fun it => (tid, b_sku it, b_qty it, b_price it)) bill ->
  forall r, In r created ->
    ti_transaction_id r = tid /\ exists it, In it bill /\ product_sku r = b_sku it.
Proof.
  revert created. induction bill as [|it rest IH]; intros created Hmap r Hr.
  - destruct created; [destruct Hr|discriminate].
  - destruct created as [|r0 created]; [destruct Hr|].
    cbn [map] in Hmap. remember (payload r0) as pr eqn:Hpr.
    remember (tid, b_sku it, b_qty it, b_price it) as want eqn:Hwant.
    injection Hmap as H0 Hrest. subst pr want.
    destruct Hr as [<-|Hr].
    + unfold payload in H0. injection H0 as Ht Hs _ _.
      split; [exact Ht|]. exists it. split; [left; reflexivity|exact Hs].
    + destruct (IH created Hrest r Hr) as [Ht (x & Hx & Hs)].
      split; [exact Ht|]. exists x. split; [right; exact Hx|exact Hs].
Qed.

(** Adding up the rows a checkout created repeats, step by step, the
    sum [process_sale] made over the bill. *)
Lemma created_sum tid bill created acc :
  map payload created = map (fun it => (tid, b_sku it, b_qty it, b_price it)) bill ->
  fold_left
    (fun a r =>
       if ti_transaction_id r =? tid
       then (a + price_at_sale r * inject_Z (quantity_sold r))%Q
       else a)
    created acc
  = fold_left (fun a it => (a + b_price it * inject_Z (b_qty it))%Q) bill acc.
Proof.
  revert created acc. induction bill as [|it rest IH]; intros created acc Hmap.
  - destruct created; [reflexivity|discriminate].
  - destruct created as [|r0 created]; [discriminate|].
    cbn [map] in Hmap. remember (payload r0) as pr eqn:Hpr.
    remember (tid, b_sku it, b_qty it, b_price it) as want eqn:Hwant.
    injection Hmap as H0 Hrest. subst pr want.
    unfold payload in H0. injection H0 as Ht _ Hq Hp.
    cbn [fold_left]. rewrite Ht, Z.eqb_refl, Hq, Hp. apply (IH created _ Hrest).
Qed.

Lemma add_product_ledger_inv k n pr q d :
  ledger_inv d -> ledger_inv (snd (add_product k n pr q d)).
Proof.
  intros Hinv.
  destruct (add_product k n pr q d) as [[msg|e] d'] eqn:H; cbn [snd].
  - apply add_product_ok in H. destruct H as [_ ->].
    destruct Hinv as (Hnd & Hfk & Htot). repeat split; cbn.
    + exact Hnd.
    + apply Hfk, H.
    + rewrite map_app. apply in_or_app. left. apply Hfk, H.
    + apply Htot.
  - apply add_product_raise_unchanged in H. subst d'. exact Hinv.
Qed.

Lemma remove_product_ledger_inv k d :
  ledger_inv d -> ledger_inv (snd (remove_product k d)).
Proof.
  intros Hinv.
  destruct (remove_product k d) as [[msg|e] d'] eqn:H; cbn [snd].
  - apply remove_product_ok in H. destruct H as [Href ->].
    destruct Hinv as (Hnd & Hfk & Htot). repeat split; cbn.
    + exact Hnd.
    + apply Hfk, H.
    + destruct (Hfk r H) as [_ Hin]. apply in_map_iff in Hin.
      destruct Hin as [p [Hp Hin]]. apply in_map_iff. exists p.
      split; [exact Hp|]. apply filter_In. split; [exact Hin|].
      apply negb_true_iff. destruct (Sql.has_sku k p) eqn:Hs; [|reflexivity].
      apply has_sku_true in Hs. exfalso. apply (Href r H). congruence.
    + apply Htot.
  - apply remove_product_raise_unchanged in H. subst d'. exact Hinv.
Qed.

Lemma process_sale_ledger_inv now bill d :
  ledger_inv d -> ledger_inv (snd (process_sale now bill d)).
Proof.
  intros Hinv.
  destruct (process_sale now bill d) as [[tid|e] d'] eqn:H; cbn [snd].
  2:{ apply process_sale_raise_unchanged in H. subst d'. exact Hinv. }
  pose proof (process_sale_ok_skus _ _ _ _ _ H) as Hskus.
  apply process_sale_ok in H.
  destruct H as (Htid & Hp & Ht & created & Hi & Hc).
  destruct Hinv as (Hnd & Hfk & Htot).
  assert (Hfresh : ~ In tid (map transaction_id (transactions d)))
    by (rewrite Htid; apply next_rowid_fresh).
  assert (Hsk : map sku (products d') = map sku (products d)).
  { rewrite Hp, map_map. reflexivity. }
  assert (Hold : forall r, In r (transaction_items d) -> ti_transaction_id r <> tid).
  { intros r Hr Heq. apply Hfresh. rewrite <- Heq. apply Hfk, Hr. }
  repeat split.
  - rewrite Ht, map_app. apply NoDup_app; [exact Hnd| |].
    + cbn. constructor; [intros []|constructor].
    + intros a Ha [<-|[]]. apply Hfresh, Ha.
  - rewrite Ht, map_app. rewrite Hi in H. apply in_app_or in H.
    apply in_or_app. destruct H as [H|H].
    + left. apply Hfk, H.
    + right. left. cbn. symmetry. apply (created_belong _ _ _ Hc r H).
  - rewrite Hsk. rewrite Hi in H. apply in_app_or in H. destruct H as [H|H].
    + apply Hfk, H.
    + destruct (created_belong _ _ _ Hc r H) as [_ (it & Hit & ->)].
      apply Hskus, Hit.
  - intros t Hin. rewrite Ht in Hin. apply in_app_or in Hin.
    rewrite ledger_total_fold, Hi, fold_left_app.
    destruct Hin as [Hin|[<-|[]]].
    + rewrite (ledger_step_skip (transaction_id t) created).
      * rewrite <- ledger_total_fold. apply (Htot t Hin).
      * intros r Hr Heq. apply Hfresh.
        rewrite <- (proj1 (created_belong _ _ _ Hc r Hr)), Heq.
        apply in_map. exact Hin.
    + cbn [transaction_id total_amount].
      rewrite (ledger_step_skip tid (transaction_items d) _ Hold).
      rewrite (created_sum _ _ _ _ Hc). reflexivity.
Qed.

(** X8: Unique transaction ids, line items that belong to a transaction
    and name a product, and a total that is the number the sum of
    [process_sale] gives on the bill the transaction's line items
    record, in table order: each operation keeps all three, whether it
    returns or raises. *)
Theorem ledger_inv_preserved o d :
  ledger_inv d -> ledger_inv (apply_op o d).
Proof.
  destruct o as [k n pr q|k|now bill]; cbn [apply_op].
  - apply add_product_ledger_inv.
  - apply remove_product_ledger_inv.
  - apply process_sale_ledger_inv.
Qed.

Lemma init_db_ledger_inv : ledger_inv init_db.
Proof.
  split; [constructor|split]; cbn; intros ? [].
Qed.

Lemma ledger_inv_preserved_witness :
  ledger_inv
    (apply_op (Checkout "2024-01-01 10:00:00" [mkBill "SKU1" "Widget" (999 # 100) 3])
              widget_store).
Proof.
  apply (ledger_inv_preserved
           (Checkout "2024-01-01 10:00:00" [mkBill "SKU1" "Widget" (999 # 100) 3])
           widget_store).
  split; [constructor|split]; cbn; intros ? [].
Defined.

(** Every store the operations produce from a fresh database has a
    sound ledger. *)
Corollary ledger_inv_reachable ops :
  ledger_inv (fold_left (fun d o => apply_op o d) ops init_db).
Proof.
  assert (H : forall d, ledger_inv d ->
                ledger_inv (fold_left (fun d o => apply_op o d) ops d)).
  { induction ops as [|o ops IH]; intros d Hd; [exact Hd|].
    cbn. apply IH. destruct o; cbn [apply_op];
      [apply add_product_ledger_inv|apply remove_product_ledger_inv
      |apply process_sale_ledger_inv]; exact Hd. }
  apply H, init_db_ledger_inv.
Qed.

(** ** Receipts *)

Lemma filter_pk k l :
  NoDup (map sku l) -> In k (map sku l) ->
  exists p, filter (Sql.has_sku k) l = [p] /\ sku p = k /\ In p l.
Proof.
  induction l as [|x l IH]; cbn; intros Hnd Hin; [destruct Hin|].
  inversion Hnd as [|? ? Hx Hl]; subst.
  destruct (Sql.has_sku k x) eqn:Hs.
  - apply has_sku_true in Hs. exists x. repeat split; [|exact Hs|left; reflexivity].
    f_equal. apply filter_none.
    destruct (existsb (Sql.has_sku k) l) eqn:He; [|reflexivity].
    apply existsb_has_sku in He. exfalso. apply Hx. rewrite Hs. exact He.
  - destruct Hin as [Hin|Hin].
    + apply has_sku_true in Hin. congruence.
    + destruct (IH Hl Hin) as (p & Hf & Hk & Hp).
      exists p. repeat split; [exact Hf|exact Hk|right; exact Hp].
Qed.

Lemma find_transaction l t :
  NoDup (map transaction_id l) -> In t l ->
  find (fun t' => transaction_id t' =? transaction_id t) l = Some t.
Proof.
  induction l as [|x l IH]; cbn; intros Hnd Hin; [destruct Hin|].
  inversion Hnd as [|? ? Hx Hl]; subst.
  destruct Hin as [->|Hin].
  - rewrite Z.eqb_refl. reflexivity.
  - destruct (transaction_id x =? transaction_id t) eqn:He.
    + apply Z.eqb_eq in He. exfalso. apply Hx. rewrite He.
      apply in_map. exact Hin.
    + apply IH; assumption.
Qed.

Lemma select_items_keys tid ps items :
  NoDup (map sku ps) ->
  (forall r, In r items -> In (product_sku r) (map sku ps)) ->
  map (fun row => match row with (q, _, k, pr) => (q, k, pr) end)
      (Sql.select_items tid (mkDb ps [] items 0 0))
  = map (fun r => (quantity_sold r, product_sku r, price_at_sale r))
        (filter (fun r => ti_transaction_id r =? tid) items).
Proof.
  intros Hnd. unfold Sql.select_items. cbn [transaction_items products].
  induction items as [|r items IH]; intros Hfk; [reflexivity|].
  cbn [flat_map filter]. rewrite map_app, IH by (intros x Hx; apply Hfk; right; exact Hx).
  destruct (ti_transaction_id r =? tid); [|reflexivity].
  destruct (filter_pk (product_sku r) ps Hnd) as (p & Hf & _).
  { apply Hfk. left. reflexivity. }
  rewrite Hf. reflexivity.
Qed.

(** X9: On a catalog keyed by sku, with unique transaction ids and line
    items that all name a product, [get_transaction_details] of an
    existing transaction (its id a 64-bit integer) returns that
    transaction and a receipt that shows each of its line items exactly
    once, in table order, with the quantity, sku and price recorded at
    the sale and the name the product has now. *)
Theorem receipt_rows t d :
  NoDup (map sku (products d)) ->
  NoDup (map transaction_id (transactions d)) ->
  (forall r, In r (transaction_items d) ->
             In (product_sku r) (map sku (products d))) ->
  In t (transactions d) ->
  Sql.bindable (transaction_id t) = true ->
  get_transaction_details (transaction_id t) d =
    (Ok (t, Sql.select_items (transaction_id t) d), d) /\
  map (fun row => match row with (q, _, k, pr) => (q, k, pr) end)
      (Sql.select_items (transaction_id t) d)
  = map (fun r => (quantity_sold r, product_sku r, price_at_sale r))
        (filter (fun r => ti_transaction_id r =? transaction_id t)
                (transaction_items d)) /\
  (forall q n k pr,
      In (q, n, k, pr) (Sql.select_items (transaction_id t) d) ->
      exists p, In p (products d) /\ sku p = k /\ name p = n).
Proof.
  intros Hpk Hnd Hfk Hin Hb. repeat split.
  - unfold get_transaction_details. run_connection. rewrite Hb.
    unfold Sql.select_transaction. rewrite (find_transaction _ _ Hnd Hin).
    reflexivity.
  - apply (select_items_keys _ _ _ Hpk Hfk).
  - intros q n k pr Hrow. apply select_items_rows in Hrow.
    destruct Hrow as (it & p & _ & _ & Hp & Hk & _ & Hn & Hk' & _).
    exists p. repeat split; [exact Hp|congruence|congruence].
Qed.

(** The receipt of the sale of three widgets at 9.99. *)
Lemma receipt_rows_witness :
  get_transaction_details
    (transaction_id (mkTransaction 1 "2024-01-01 10:00:00" (2997 # 100)))
    widget_sold =
    (Ok (mkTransaction 1 "2024-01-01 10:00:00" (2997 # 100),
         Sql.select_items
           (transaction_id (mkTransaction 1 "2024-01-01 10:00:00" (2997 # 100)))
           widget_sold),
     widget_sold) /\
  map (fun row => match row with (q, _, k, pr) => (q, k, pr) end)
      (Sql.select_items
         (transaction_id (mkTransaction 1 "2024-01-01 10:00:00" (2997 # 100)))
         widget_sold)
  = map (fun r => (quantity_sold r, product_sku r, price_at_sale r))
        (filter (fun r => ti_transaction_id r =?
                   transaction_id (mkTransaction 1 "2024-01-01 10:00:00" (2997 # 100)))
                (transaction_items widget_sold)) /\
  (forall q n k pr,
      In (q, n, k, pr)
         (Sql.select_items
            (transaction_id (mkTransaction 1 "2024-01-01 10:00:00" (2997 # 100)))
            widget_sold) ->
      exists p, In p (products widget_sold) /\ sku p = k /\ name p = n).
Proof.
  apply (receipt_rows
           (mkTransaction 1 "2024-01-01 10:00:00" (2997 # 100)) widget_sold).
  - cbn. constructor; [intros []|constructor].
  - cbn. constructor; [intros []|constructor].
  - cbn. intros r [<-|[]]. cbn. left. reflexivity.
  - left. reflexivity.
  - reflexivity.
Defined.

(** ** Listings *)

Section OrderBy.

Context {A : Type} (le : A -> A -> bool).
Hypothesis le_total : forall a b, le a b = true \/ le b a = true.
Hypothesis le_trans : forall a b c, le a b = true -> le b c = true -> le a c = true.

Let R (a b : A) : Prop := le a b = true.

Lemma insert_row_perm x l : Permutation (Sql.insert_row le x l) (x :: l).
Proof.
  induction l as [|y l IH]; cbn; [reflexivity|].
  destruct (le x y); [reflexivity|].
  rewrite IH. apply perm_swap.
Qed.

Lemma order_by_perm l : Permutation (Sql.order_by le l) l.
Proof.
  induction l as [|x l IH]; cbn; [reflexivity|].
  rewrite insert_row_perm. apply perm_skip, IH.
Qed.

Lemma insert_row_sorted x l : Sorted R l -> Sorted R (Sql.insert_row le x l).
Proof.
  induction l as [|y l IH]; cbn; intros Hs.
  - repeat constructor.
  - destruct (le x y) eqn:Hxy.
    + constructor; [exact Hs|constructor; exact Hxy].
    + apply Sorted_inv in Hs. destruct Hs as [Hs Hhd].
      constructor; [apply IH, Hs|].
      assert (Hyx : R y x) by (destruct (le_total x y); [congruence|assumption]).
      destruct l as [|z l]; cbn.
      * constructor. exact Hyx.
      * destruct (le x z); constructor; [exact Hyx|].
        apply HdRel_inv in Hhd. exact Hhd.
Qed.

Lemma order_by_sorted l : StronglySorted R (Sql.order_by le l).
Proof.
  apply Sorted_StronglySorted.
  - intros a b c. apply le_trans.
  - induction l as [|x l IH]; cbn; [constructor|].
    apply insert_row_sorted, IH.
Qed.

Lemma strongly_sorted_split l1 l2 :
  StronglySorted R (l1 ++ l2) ->
  forall a b, In a l1 -> In b l2 -> R a b.
Proof.
  induction l1 as [|x l1 IH]; cbn; intros Hs a b Ha Hb; [destruct Ha|].
  apply StronglySorted_inv in Hs. destruct Hs as [Hs Hall].
  destruct Ha as [<-|Ha].
  - rewrite Forall_forall in Hall. apply Hall. apply in_or_app. right. exact Hb.
  - apply (IH Hs a b Ha Hb).
Qed.

Lemma strongly_sorted_firstn n l :
  StronglySorted R l -> StronglySorted R (firstn n l).
Proof.
  revert l. induction n as [|n IH]; intros l Hs; cbn; [constructor|].
  destruct l as [|x l]; [constructor|].
  apply StronglySorted_inv in Hs. destruct Hs as [Hs Hall].
  constructor; [apply IH, Hs|].
  rewrite Forall_forall in *. intros y Hy. apply Hall.
  rewrite <- (firstn_skipn n l). apply in_or_app. left. exact Hy.
Qed.

End OrderBy.

Lemma string_leb_trans a b c :
  String.leb a b = true -> String.leb b c = true -> String.leb a c = true.
Proof.
  revert b c. induction a as [|x a IH]; intros b c Hab Hbc.
  - destruct c; reflexivity.
  - destruct b as [|y b]; [discriminate|]. destruct c as [|z c]; [discriminate|].
    unfold String.leb in *. cbn [String.compare] in *.
    destruct (Ascii.compare x y) eqn:Hxy; [| |discriminate];
      destruct (Ascii.compare y z) eqn:Hyz; try discriminate.
    + apply Ascii.compare_eq_iff in Hxy, Hyz. subst y z.
      replace (Ascii.compare x x) with Eq
        by (symmetry; unfold Ascii.compare; apply N.compare_refl).
      apply (IH b c Hab Hbc).
    + apply Ascii.compare_eq_iff in Hxy. subst y. rewrite Hyz. reflexivity.
    + apply Ascii.compare_eq_iff in Hyz. subst z. rewrite Hxy. reflexivity.
    + unfold Ascii.compare in *.
      rewrite N.compare_lt_iff in Hxy, Hyz.
      rewrite (proj2 (N.compare_lt_iff _ _) (N.lt_trans _ _ _ Hxy Hyz)).
      reflexivity.
Qed.

Lemma by_name_total a b : Sql.by_name a b = true \/ Sql.by_name b a = true.
Proof. apply String.leb_total. Qed.

Lemma by_name_trans a b c :
  Sql.by_name a b = true -> Sql.by_name b c = true -> Sql.by_name a c = true.
Proof. apply string_leb_trans. Qed.

Lemma by_timestamp_total a b :
  Sql.by_timestamp_desc a b = true \/ Sql.by_timestamp_desc b a = true.
Proof. unfold Sql.by_timestamp_desc. destruct (String.leb_total (timestamp a) (timestamp b)); auto. Qed.

Lemma by_timestamp_trans a b c :
  Sql.by_timestamp_desc a b = true -> Sql.by_timestamp_desc b c = true ->
  Sql.by_timestamp_desc a c = true.
Proof.
  unfold Sql.by_timestamp_desc. intros H1 H2.
  apply (string_leb_trans _ _ _ H2 H1).
Qed.

(** X11: [get_all_products] returns every row of the catalog once, no
    other, in ascending order of name, and leaves the database alone. *)
Theorem get_all_products_sorted d :
  exists rows,
    get_all_products d = (Rows rows, d) /\
    Permutation rows (products d) /\
    StronglySorted (fun p1 p2 => String.leb (name p1) (name p2) = true) rows.
Proof.
  exists (Sql.select_all_products d). repeat split.
  - apply order_by_perm.
  - apply (order_by_sorted Sql.by_name by_name_total by_name_trans).
Qed.

(** X12: For a [limit] that fits in 64 bits, [get_transaction_history]
    returns [limit] transactions, all of them when there are fewer or
    when [limit] is negative, newest first, and none it leaves out is
    newer than one it returns. *)
Theorem get_transaction_history_recent limit d :
  Sql.bindable limit = true ->
  exists rows rest,
    get_transaction_history limit d = (Rows rows, d) /\
    List.length rows =
      (if limit <? 0 then List.length (transactions d)
       else Nat.min (Z.to_nat limit) (List.length (transactions d))) /\
    Permutation (rows ++ rest) (transactions d) /\
    StronglySorted (fun t1 t2 => String.leb (timestamp t2) (timestamp t1) = true)
                   rows /\
    forall t t', In t rows -> In t' rest ->
                 String.leb (timestamp t') (timestamp t) = true.
Proof.
  intros Hb.
  pose proof (order_by_perm Sql.by_timestamp_desc (transactions d)) as Hperm.
  pose proof (order_by_sorted Sql.by_timestamp_desc by_timestamp_total
                by_timestamp_trans (transactions d)) as Hsorted.
  unfold get_transaction_history, listing_of, get_db_connection, close,
    Sql.select_history.
  cbn [working committed]. rewrite Hb. cbn [negb].
  set (all := Sql.order_by Sql.by_timestamp_desc (transactions d)) in *.
  destruct (limit <? 0).
  - exists all, []. repeat split.
    + apply Permutation_length, Hperm.
    + rewrite app_nil_r. exact Hperm.
    + exact Hsorted.
    + intros t t' _ [].
  - exists (firstn (Z.to_nat limit) all), (skipn (Z.to_nat limit) all).
    repeat split.
    + rewrite length_firstn, (Permutation_length Hperm). reflexivity.
    + rewrite firstn_skipn. exact Hperm.
    + apply strongly_sorted_firstn, Hsorted.
    + rewrite <- (firstn_skipn (Z.to_nat limit) all) in Hsorted.
      apply (strongly_sorted_split _ _ _ Hsorted).
Qed.

(** The default limit, 50, on a store with one sale. *)
Lemma get_transaction_history_recent_witness :
  exists rows rest,
    get_transaction_history 50 widget_sold = (Rows rows, widget_sold) /\
    List.length rows =
      (if 50 <? 0 then List.length (transactions widget_sold)
       else Nat.min (Z.to_nat 50) (List.length (transactions widget_sold))) /\
    Permutation (rows ++ rest) (transactions widget_sold) /\
    StronglySorted (fun t1 t2 => String.leb (timestamp t2) (timestamp t1) = true)
                   rows /\
    forall t t', In t rows -> In t' rest ->
                 String.leb (timestamp t') (timestamp t) = true.
Proof.
  apply (get_transaction_history_recent 50 widget_sold). reflexivity.
Defined.

(** A [limit] beyond 64 bits cannot be bound: the call raises
    [RuntimeError]. *)
Lemma get_transaction_history_unbindable limit d :
  Sql.bindable limit = false ->
  get_transaction_history limit d =
    (ListingRuntimeError (DbErrorFetchingHistory OverflowError), d).
Proof.
  intros Hb. unfold get_transaction_history, listing_of, get_db_connection,
    close, Sql.select_history.
  cbn [working committed]. rewrite Hb. reflexivity.
Qed.

(** ** Searching *)

Local Open Scope string_scope.

Lemma like_percent pat s :
  Sql.like (String "%" pat) s =
  Sql.like pat s
  || match s with
     | EmptyString => false
     | String _ s' => Sql.like (String "%" pat) s'
     end.
Proof. destruct s; reflexivity. Qed.

(** [%] followed by [pat] matches the texts with a tail [pat] matches. *)
Lemma like_percent_iff pat s :
  Sql.like (String "%" pat) s = true <->
  exists a b, s = a ++ b /\ Sql.like pat b = true.
Proof.
  induction s as [|c s IH]; rewrite like_percent.
  - rewrite orb_false_r. split.
    + intros H. exists EmptyString, EmptyString. split; [reflexivity|exact H].
    + intros (a & b & Heq & H). destruct a; [|discriminate].
      cbn in Heq. subst b. exact H.
  - rewrite orb_true_iff, IH. split.
    + intros [H|(a & b & -> & H)].
      * exists EmptyString, (String c s). split; [reflexivity|exact H].
      * exists (String c a), b. split; [reflexivity|exact H].
    + intros (a & b & Heq & H). destruct a as [|c' a].
      * cbn in Heq. subst b. left. exact H.
      * cbn in Heq. injection Heq as _ ->. right.
        exists a, b. split; [reflexivity|exact H].
Qed.




Lemma find_products_rows term d :
  find_products term d =
    (Rows (Sql.select_matching_products (normalize_sku term) ("%" ++ term ++ "%") d),
     d).
Proof. reflexivity. Qed.




(** X14: The empty term finds everything: [find_products] on it is
    [get_all_products]. *)
Theorem find_products_empty_term d :
  find_products EmptyString d = get_all_products d.
Proof.
  rewrite find_products_rows. unfold get_all_products, listing_of, query,
    get_db_connection, close, Sql.select_matching_products,
    Sql.select_all_products.
  cbn [working committed]. do 2 f_equal. f_equal.
  induction (products d) as [|p l IH]; [reflexivity|].
  cbn [filter]. change (EmptyString ++ "%") with "%".
  replace (Sql.like ("%" ++ "%") (name p)) with true.
  - rewrite orb_true_r. f_equal. exact IH.
  - symmetry. apply like_percent_iff. exists (name p), EmptyString.
    split; [|reflexivity].
    induction (name p) as [|c s IHs]; cbn; [reflexivity|]. f_equal. exact IHs.
Qed.



Local Open Scope list_scope.
Local Open Scope Z_scope.

(** ** Normalized skus *)















(** ** When a checkout goes through *)







(** * The billing screen *)

(** ** Merging the entries of a bill *)

Lemma sold_of_app k l l' : sold_of k (l ++ l') = sold_of k l + sold_of k l'.
Proof. induction l as [|x l IH]; cbn; [reflexivity|]. rewrite IH. lia. Qed.


Lemma existsb_b_sku k l :
  existsb (fun e => String.eqb (b_sku e) k) l = true <-> In k (map b_sku l).
Proof.
  rewrite existsb_exists, in_map_iff. split.
  - intros [e [Hin He]]. exists e. split; [apply String.eqb_eq, He|exact Hin].
  - intros [e [He Hin]]. exists e. split; [exact Hin|apply String.eqb_eq, He].
Qed.

(** Adding [q] to the entries of sku [k] keeps every sku. *)
Lemma map_b_sku_bump k q l :
  map b_sku
    (map (fun e => if String.eqb (b_sku e) k
                   then mkBill (b_sku e) (b_name e) (b_price e) (b_qty e + q)
                   else e) l)
  = map b_sku l.
Proof.
  rewrite map_map. apply map_ext. intros e.
  destruct (String.eqb (b_sku e) k); reflexivity.
Qed.

Lemma bump_absent k q l :
  ~ In k (map b_sku l) ->
  map (fun e => if String.eqb (b_sku e) k
                then mkBill (b_sku e) (b_name e) (b_price e) (b_qty e + q)
                else e) l
  = l.
Proof.
  induction l as [|x l IH]; cbn; intros H; [reflexivity|].
  destruct (String.eqb (b_sku x) k) eqn:He.
  - apply String.eqb_eq in He. exfalso. apply H. left. exact He.
  - f_equal. apply IH. intros Hin. apply H. right. exact Hin.
Qed.

Lemma aggregate_item_skus agg it :
  map b_sku (Gui.aggregate_item agg it) =
  if existsb (fun e => String.eqb (b_sku e) (b_sku it)) agg
  then map b_sku agg else map b_sku agg ++ [b_sku it].
Proof.
  unfold Gui.aggregate_item. rewrite map_b_sku_bump.
  destruct (existsb _ agg); [reflexivity|]. rewrite map_app. reflexivity.
Qed.

Lemma aggregate_item_nodup agg it :
  NoDup (map b_sku agg) -> NoDup (map b_sku (Gui.aggregate_item agg it)).
Proof.
  intros Hnd. rewrite aggregate_item_skus.
  destruct (existsb _ agg) eqn:He; [exact Hnd|].
  apply NoDup_app; [exact Hnd|constructor; [intros []|constructor]|].
  intros k Hk [<-|[]]. apply existsb_b_sku in Hk. congruence.
Qed.

Lemma bump_present k sku0 q l :
  NoDup (map b_sku l) -> In sku0 (map b_sku l) ->
  sold_of k
    (map (fun e => if String.eqb (b_sku e) sku0
                   then mkBill (b_sku e) (b_name e) (b_price e) (b_qty e + q)
                   else e) l)
  = sold_of k l + (if String.eqb sku0 k then q else 0).
Proof.
  induction l as [|x l IH]; cbn [map]; intros Hnd Hin; [destruct Hin|].
  inversion Hnd as [|? ? Hx Hl]; subst.
  destruct (String.eqb (b_sku x) sku0) eqn:He.
  - apply String.eqb_eq in He. subst sku0.
    rewrite bump_absent by exact Hx. cbn.
    destruct (String.eqb (b_sku x) k); lia.
  - destruct Hin as [Hin|Hin].
    + apply String.eqb_neq in He. contradiction.
    + cbn [sold_of]. rewrite (IH Hl Hin). lia.
Qed.

Lemma aggregate_item_sold k agg it :
  NoDup (map b_sku agg) ->
  sold_of k (Gui.aggregate_item agg it) =
  sold_of k agg + (if String.eqb (b_sku it) k then b_qty it else 0).
Proof.
  intros Hnd. unfold Gui.aggregate_item.
  destruct (existsb _ agg) eqn:He.
  - apply existsb_b_sku in He. apply (bump_present _ _ _ _ Hnd He).
  - assert (Hnew : ~ In (b_sku it) (map b_sku agg)).
    { intros Hin. apply existsb_b_sku in Hin. congruence. }
    rewrite map_app, bump_absent by exact Hnew.
    rewrite sold_of_app. cbn. rewrite String.eqb_refl. cbn.
    destruct (String.eqb (b_sku it) k); lia.
Qed.

Lemma aggregate_from agg items :
  NoDup (map b_sku agg) ->
  NoDup (map b_sku (fold_left Gui.aggregate_item items agg)) /\
  (forall k, sold_of k (fold_left Gui.aggregate_item items agg)
             = sold_of k agg + sold_of k items) /\
  (forall k, In k (map b_sku (fold_left Gui.aggregate_item items agg)) <->
             In k (map b_sku agg) \/ In k (map b_sku items)).
Proof.
  revert agg. induction items as [|it items IH]; intros agg Hnd.
  - cbn. repeat split; [exact Hnd|intros; lia|intros H; left; exact H|].
    intros [H|[]]. exact H.
  - cbn [fold_left].
    destruct (IH _ (aggregate_item_nodup agg it Hnd)) as (Hn & Hs & Hk).
    repeat split.
    + exact Hn.
    + intros k. rewrite Hs, (aggregate_item_sold k agg it Hnd). cbn. lia.
    + intros H. apply Hk in H. rewrite aggregate_item_skus in H.
      destruct (existsb _ agg) eqn:He.
      * destruct H as [H|H]; [left; exact H|right; right; exact H].
      * destruct H as [H|H]; [|right; right; exact H].
        apply in_app_or in H. destruct H as [H|[<-|[]]];
          [left; exact H|right; left; reflexivity].
    + intros H. apply Hk. rewrite aggregate_item_skus.
      destruct (existsb _ agg) eqn:He.
      * destruct H as [H|[<-|H]]; [left; exact H| |right; exact H].
        left. apply existsb_b_sku. exact He.
      * destruct H as [H|[<-|H]]; [| |right; exact H].
        -- left. apply in_or_app. left. exact H.
        -- left. apply in_or_app. right. left. reflexivity.
Qed.

Lemma merged_bill_facts items :
  NoDup (map b_sku (Gui.final_bill_items items)) /\
  (forall k, In k (map b_sku (Gui.final_bill_items items)) <->
             In k (map b_sku items)) /\
  (forall k, sold_of k (Gui.final_bill_items items) = sold_of k items).
Proof.
  destruct (aggregate_from [] items) as (Hn & Hs & Hk); [constructor|].
  repeat split.
  - exact Hn.
  - intros H. apply Hk in H. destruct H as [[]|H]. exact H.
  - intros H. apply Hk. right. exact H.
  - intros k. unfold Gui.final_bill_items. rewrite (Hs k). reflexivity.
Qed.

(** X17: The list [process_checkout] hands to [process_sale] has every sku
    of the bill once, no other, and sells of each sku what the entries
    of the bill sell of it together. *)
Theorem final_bill_items_merge items :
  NoDup (map b_sku (Gui.final_bill_items items)) /\
  (forall k, In k (map b_sku (Gui.final_bill_items items)) <->
             In k (map b_sku items)) /\
  (forall k, sold_of k (Gui.final_bill_items items) = sold_of k items).
Proof.
  destruct (aggregate_from [] items) as (Hn & Hs & Hk); [constructor|].
  repeat split.
  - exact Hn.
  - intros H. apply Hk in H. destruct H as [[]|H]. exact H.
  - intros H. apply Hk. right. exact H.
  - intros k. unfold Gui.final_bill_items. rewrite (Hs k). reflexivity.
Qed.



(** ** Checking out the bill on the screen *)



(** ** The name and price of a merged entry *)

Lemma first_of_later e items it :
  first_of e items -> first_of e (items ++ [it]).
Proof.
  intros (pre & x & post & -> & Hpre & Hk & Hn & Hp).
  exists pre, x, (post ++ [it]). rewrite <- app_assoc. cbn.
  repeat split; assumption.
Qed.

Lemma first_of_same e e' items :
  b_sku e' = b_sku e -> b_name e' = b_name e -> b_price e' = b_price e ->
  first_of e items -> first_of e' items.
Proof.
  intros Hk Hn Hp (pre & x & post & -> & Hpre & Hkx & Hnx & Hpx).
  exists pre, x, post. rewrite Hk, Hn, Hp. repeat split; assumption.
Qed.

Lemma aggregate_item_first seen agg it :
  (forall e, In e agg -> first_of e seen) ->
  (forall k, In k (map b_sku seen) -> In k (map b_sku agg)) ->
  forall e, In e (Gui.aggregate_item agg it) -> first_of e (seen ++ [it]).
Proof.
  intros Hagg Hseen e' H. unfold Gui.aggregate_item in H.
  apply in_map_iff in H. destruct H as (e & <- & He).
  apply (first_of_same e).
  - destruct (String.eqb (b_sku e) (b_sku it)); reflexivity.
  - destruct (String.eqb (b_sku e) (b_sku it)); reflexivity.
  - destruct (String.eqb (b_sku e) (b_sku it)); reflexivity.
  - destruct (existsb _ agg) eqn:Hex.
    + apply first_of_later, Hagg, He.
    + apply in_app_or in He. destruct He as [He|[<-|[]]].
      * apply first_of_later, Hagg, He.
      * exists seen, it, []. cbn. repeat split.
        intros Hin. apply Hseen, existsb_b_sku in Hin. congruence.
Qed.

Lemma aggregate_first items : forall seen agg,
  (forall e, In e agg -> first_of e seen) ->
  (forall k, In k (map b_sku seen) -> In k (map b_sku agg)) ->
  forall e, In e (fold_left Gui.aggregate_item items agg) ->
            first_of e (seen ++ items).
Proof.
  induction items as [|it items IH]; intros seen agg Hagg Hseen e He.
  - cbn in He. rewrite app_nil_r. apply Hagg, He.
  - cbn [fold_left] in He.
    replace (seen ++ it :: items) with ((seen ++ [it]) ++ items)
      by (rewrite <- app_assoc; reflexivity).
    apply (IH (seen ++ [it]) (Gui.aggregate_item agg it)); [| |exact He].
    + apply (aggregate_item_first seen agg it Hagg Hseen).
    + intros k Hk. rewrite aggregate_item_skus.
      rewrite map_app in Hk. apply in_app_or in Hk.
      destruct (existsb _ agg) eqn:Hex.
      * destruct Hk as [Hk|[<-|[]]]; [apply Hseen, Hk|].
        apply existsb_b_sku, Hex.
      * apply in_or_app.
        destruct Hk as [Hk|Hk]; [left; apply Hseen, Hk|right; exact Hk].
Qed.

(** X19: Every entry of the list [process_checkout] hands to
    [process_sale] carries the name and the price of the first entry of
    its sku on the bill, whatever later entries of that sku say. *)
Theorem final_bill_items_first items e :
  In e (Gui.final_bill_items items) ->
  exists pre it post,
    items = pre ++ it :: post /\
    ~ In (b_sku e) (map b_sku pre) /\
    b_sku it = b_sku e /\ b_name e = b_name it /\ b_price e = b_price it.
Proof.
  intros He. apply (aggregate_first items [] [] ) in He.
  - exact He.
  - intros x [].
  - intros k [].
Qed.

Lemma final_bill_items_first_witness :
  exists pre it post,
    [mkBill "SKU1" "Widget" (999 # 100) 3; mkBill "SKU2" "Gadget" 2 1;
     mkBill "SKU1" "Widget on offer" 5 2] = pre ++ it :: post /\
    ~ In (b_sku (mkBill "SKU1" "Widget" (999 # 100) 5)) (map b_sku pre) /\
    b_sku it = b_sku (mkBill "SKU1" "Widget" (999 # 100) 5) /\
    b_name (mkBill "SKU1" "Widget" (999 # 100) 5) = b_name it /\
    b_price (mkBill "SKU1" "Widget" (999 # 100) 5) = b_price it.
Proof.
  apply (final_bill_items_first
           [mkBill "SKU1" "Widget" (999 # 100) 3; mkBill "SKU2" "Gadget" 2 1;
            mkBill "SKU1" "Widget on offer" 5 2]
           (mkBill "SKU1" "Widget" (999 # 100) 5)).
  cbn. left. reflexivity.
Defined.

(** ** The bill between clicks *)

Lemma start_billing_mode_inv : Gui.bill_inv Gui.start_billing_mode.
Proof. split; [reflexivity|constructor]. Qed.

(** X20: Whatever row is selected and whatever quantity is typed,
    [add_selected_to_bill] keeps the running total equal to the sum over
    the entries of the bill, and lets no entry in that has an empty sku
    or a quantity below 1; when it refuses, the bill is as before. *)
Theorem add_selected_to_bill_inv k n pr stock q st :
  Gui.bill_inv st ->
  Gui.bill_inv (snd (Gui.add_selected_to_bill k n pr stock q st)) /\
  ((forall added nm, fst (Gui.add_selected_to_bill k n pr stock q st)
                     <> Gui.AddedToBill added nm) ->
   snd (Gui.add_selected_to_bill k n pr stock q st) = st).
Proof.
  intros [Htot Hall]. unfold Gui.add_selected_to_bill.
  destruct (Py.not_str k) eqn:Hk; [split; [split; assumption|reflexivity]|].
  destruct (q <=? 0) eqn:Hq; [split; [split; assumption|reflexivity]|].
  destruct (stock <? q); [split; [split; assumption|reflexivity]|].
  cbn [fst snd]. split.
  - split; cbn.
    + unfold bill_total. rewrite fold_left_app. cbn.
      unfold bill_total in Htot. rewrite Htot. reflexivity.
    + apply Forall_app. split; [exact Hall|].
      constructor; [|constructor]. cbn. split.
      * intros ->. discriminate Hk.
      * apply Z.leb_gt in Hq. exact Hq.
  - intros H. exfalso. apply (H q n). reflexivity.
Qed.

Lemma add_selected_to_bill_inv_witness :
  Gui.bill_inv
    (snd (Gui.add_selected_to_bill "SKU1" "Widget" (999 # 100) 5 3
            Gui.start_billing_mode)) /\
  ((forall added nm,
       fst (Gui.add_selected_to_bill "SKU1" "Widget" (999 # 100) 5 3
              Gui.start_billing_mode) <> Gui.AddedToBill added nm) ->
   snd (Gui.add_selected_to_bill "SKU1" "Widget" (999 # 100) 5 3
          Gui.start_billing_mode) = Gui.start_billing_mode).
Proof.
  apply (add_selected_to_bill_inv "SKU1" "Widget" (999 # 100) 5 3
           Gui.start_billing_mode).
  split; [reflexivity|constructor].
Defined.

Lemma aggregate_item_positive agg it :
  0 < b_qty it ->
  Forall (fun e => 0 < b_qty e) agg ->
  Forall (fun e => 0 < b_qty e) (Gui.aggregate_item agg it).
Proof.
  intros Hq Hagg. unfold Gui.aggregate_item.
  apply Forall_forall. intros e' He'. apply in_map_iff in He'.
  destruct He' as (e & <- & He).
  destruct (existsb _ agg).
  - rewrite Forall_forall in Hagg. specialize (Hagg e He).
    destruct (String.eqb (b_sku e) (b_sku it)); cbn; lia.
  - apply in_app_or in He. destruct He as [He|[<-|[]]].
    + rewrite Forall_forall in Hagg. specialize (Hagg e He).
      destruct (String.eqb (b_sku e) (b_sku it)); cbn; lia.
    + cbn. rewrite String.eqb_refl. cbn. lia.
Qed.

Lemma final_bill_items_positive items :
  Forall (fun it => 0 < b_qty it) items ->
  Forall (fun e => 0 < b_qty e) (Gui.final_bill_items items).
Proof.
  unfold Gui.final_bill_items.
  assert (H : forall agg, Forall (fun e => 0 < b_qty e) agg ->
                Forall (fun it => 0 < b_qty it) items ->
                Forall (fun e => 0 < b_qty e)
                       (fold_left Gui.aggregate_item items agg)).
  { induction items as [|it items IH]; intros agg Hagg Hitems; [exact Hagg|].
    inversion Hitems as [|? ? Hq Hrest]; subst. cbn [fold_left].
    apply IH; [apply aggregate_item_positive; assumption|exact Hrest]. }
  apply H. constructor.
Qed.

(** X21: A bill put together on the screen and checked out leaves one line
    item per product on it, each with a positive quantity. *)
Theorem screen_checkout_rows now st d tid d' :
  Gui.bill_inv st ->
  process_sale now (Gui.final_bill_items (Gui.current_bill_items st)) d
    = (Ok tid, d') ->
  exists created,
    transaction_items d' = transaction_items d ++ created /\
    NoDup (map product_sku created) /\
    (forall k, In k (map product_sku created) <->
               In k (map b_sku (Gui.current_bill_items st))) /\
    Forall (fun r => ti_transaction_id r = tid /\ 0 < quantity_sold r) created.
Proof.
  intros [_ Hall] Hrun. apply process_sale_ok in Hrun.
  destruct Hrun as (_ & _ & _ & created & Hi & Hc).
  destruct (merged_bill_facts (Gui.current_bill_items st)) as (Hn & Hk & _).
  assert (Hpos : Forall (fun e => 0 < b_qty e)
                   (Gui.final_bill_items (Gui.current_bill_items st))).
  { apply final_bill_items_positive. rewrite Forall_forall in *.
    intros it Hit. apply (Hall it Hit). }
  assert (Hskus : map product_sku created =
                  map b_sku (Gui.final_bill_items (Gui.current_bill_items st))).
  { clear -Hc. revert created Hc.
    induction (Gui.final_bill_items (Gui.current_bill_items st)) as [|it l IH];
      intros created Hc.
    - destruct created; [reflexivity|discriminate].
    - destruct created as [|r created]; [discriminate|].
      cbn [map] in Hc. remember (payload r) as pr eqn:Hpr.
      remember (tid, b_sku it, b_qty it, b_price it) as want eqn:Hwant.
      injection Hc as H0 Hrest. subst pr want.
      unfold payload in H0. injection H0 as _ Hs _ _.
      cbn [map]. rewrite Hs, (IH created Hrest). reflexivity. }
  exists created. repeat split.
  - exact Hi.
  - rewrite Hskus. exact Hn.
  - rewrite Hskus. apply Hk.
  - rewrite Hskus. apply Hk.
  - destruct (created_rows tid (fun it => 0 < b_qty it)
                (fun r => ti_transaction_id r = tid /\ 0 < quantity_sold r))
      with (bill := Gui.final_bill_items (Gui.current_bill_items st))
           (created := created) as [HR _]; try assumption.
    intros it r Hq Hr. unfold payload in Hr. injection Hr as -> _ -> _.
    split; [reflexivity|exact Hq].
Qed.

Lemma screen_checkout_rows_witness :
  exists created,
    transaction_items
      (mkDb [mkProduct "SKU1" "Widget" (999 # 100) 2]
            [mkTransaction 1 "2024-01-01 10:00:00" (2997 # 100)]
            [mkItem 1 1 "SKU1" 3 (999 # 100)] 1 1)
    = transaction_items widget_store ++ created /\
    NoDup (map product_sku created) /\
    (forall k, In k (map product_sku created) <->
               In k (map b_sku
                       (Gui.current_bill_items
                          (snd (Gui.add_selected_to_bill "SKU1" "Widget"
                                  (999 # 100) 5 3 Gui.start_billing_mode))))) /\
    Forall (fun r => ti_transaction_id r = 1 /\ 0 < quantity_sold r) created.
Proof.
  apply (screen_checkout_rows "2024-01-01 10:00:00"
           (snd (Gui.add_selected_to_bill "SKU1" "Widget" (999 # 100) 5 3
                   Gui.start_billing_mode))
           widget_store 1).
  - split; [reflexivity|].
    constructor; [|constructor]. split; [discriminate|cbn; lia].
  - reflexivity.
Defined.

(** ** What the screen shows *)

Lemma summarize_item_aggregate agg it :
  Gui.summarize_item agg it = Gui.aggregate_item agg it.
Proof.
  unfold Gui.summarize_item, Gui.aggregate_item.
  destruct (existsb _ agg) eqn:He; [reflexivity|].
  assert (Hnew : ~ In (b_sku it) (map b_sku agg)).
  { intros Hin. apply existsb_b_sku in Hin. congruence. }
  rewrite map_app, bump_absent by exact Hnew.
  cbn. rewrite String.eqb_refl. reflexivity.
Qed.

(** X22: The rows the billing screen shows for a bill are the entries
    [process_checkout] sends to [process_sale], in the same order:
    what is on the screen is what is checked out. *)
Theorem displayed_bill_is_checked_out items :
  Gui.display_current_bill items = Gui.final_bill_items items.
Proof.
  unfold Gui.display_current_bill, Gui.final_bill_items.
  generalize (@nil bill_item) as agg.
  induction items as [|it items IH]; intros agg; [reflexivity|].
  cbn [fold_left]. rewrite summarize_item_aggregate. apply IH.
Qed.
